(** * SkillBridge AI: the generation client, the orchestration pipeline,
      the intake form and the quiz runner

    A shallow embedding of
      - [src/types.ts]              (the schema contracts and, after the
                                     separator, the Gemini generation client),
      - [src/App.tsx]               (the orchestration pipeline),
      - [src/unnamed/part_000]      (the JobAnalyzer intake form),
      - [src/components/Quiz.tsx]   (the quiz runner).

    Conventions of the embedding.
      - A JavaScript value is a [value]; whatever [JSON.parse] can build is
        one.  Numbers are the integer-valued ones, kept as [Z].
      - A function that may throw returns an [outcome].
      - An [async] function with one [await] is a [started] computation:
        either it settles before it reaches the request, or it waits for the
        reply of the generation service.
      - What the generation service answers to a request is a [reply]:
        the outcome of the request and of [JSON.parse] on its text, as the
        client sees it.
      - React state setters, calls, requests, settlements and the alert are
        [event]s; a handler yields the list of events it performs, in order,
        and [apply_events] replays the setters on the application state.
      - [console.error] output and the text of the prompts are not modelled;
        of a prompt only its ability to throw while it is built is kept. *)

From Stdlib Require Import List String Ascii ZArith Bool Arith Lia.
From Stdlib Require Import DecimalString.
Import ListNotations.
Open Scope string_scope.
Open Scope list_scope.
Set Warnings "-register-all".


(* ================================================================== *)
(** ** JavaScript values and exceptions *)

Module JS.

Inductive value : Type :=
| Undefined
| Null
| Bool (b : bool)
| Num (z : Z)
| Str (s : string)
| Arr (items : list value)
| Obj (fields : list (string * value)).

Inductive error : Type :=
| TypeError
| SyntaxError
| NetworkError
| Error (message : string).

Inductive outcome (A : Type) : Type :=
| Returned (a : A)
| Thrown (e : error).
Arguments Returned {A} a.
Arguments Thrown {A} e.

Definition bind {A B} (m : outcome A) (f : A -> outcome B) : outcome B :=
  match m with
  | Returned a => f a
  | Thrown e => Thrown e
  end.

(** [try { body } catch (error) { handler }] *)
Definition try_catch {A} (body : outcome A) (handler : error -> outcome A)
  : outcome A :=
  match body with
  | Returned a => Returned a
  | Thrown e => handler e
  end.

Definition returns {A} (o : outcome A) : bool :=
  match o with Returned _ => true | Thrown _ => false end.

(** ToBoolean, as used by [if (x)], [!x], [x || y] and [x ? a : b]. *)
Definition truthy (v : value) : bool :=
  match v with
  | Undefined | Null => false
  | Bool b => b
  | Num z => negb (Z.eqb z 0)
  | Str s => negb (String.eqb s "")
  | Arr _ | Obj _ => true
  end.

Definition truthy_string (s : string) : bool := negb (String.eqb s "").

Fixpoint lookup (k : string) (fields : list (string * value)) : value :=
  match fields with
  | [] => Undefined
  | (k', v) :: rest => if String.eqb k k' then v else lookup k rest
  end.

(** [v.k] for the property names the sources read on parsed JSON ([role],
    [company], [type], [skills], [category], [options], [correctAnswer]):
    a TypeError on [undefined] and [null], the own property of an object,
    [undefined] on everything else. *)
Definition get_prop (v : value) (k : string) : outcome value :=
  match v with
  | Undefined | Null => Thrown TypeError
  | Obj fields => Returned (lookup k fields)
  | _ => Returned Undefined
  end.

Definition string_of_Z (z : Z) : string :=
  NilZero.string_of_int (Z.to_int z).

Definition join_with (sep : string) (parts : list string) : string :=
  String.concat sep parts.

(** ToString, as performed by a template literal [`${v}`]; an integer
    prints in decimal (as JavaScript does below 10^21 in magnitude), an
    array is joined with commas, its [null] and [undefined] items printing
    as the empty string. *)
Fixpoint to_string (v : value) : string :=
  match v with
  | Undefined => "undefined"
  | Null => "null"
  | Bool true => "true"
  | Bool false => "false"
  | Num z => string_of_Z z
  | Str s => s
  | Arr items =>
      join_with ","
        (map (fun x => match x with
                       | Undefined | Null => ""
                       | _ => to_string x
                       end) items)
  | Obj _ => "[object Object]"
  end.

(** [v.join(sep)]: only an array has the method; calling it on anything
    else is a TypeError. *)
Definition join_method (v : value) (sep : string) : outcome string :=
  match v with
  | Arr items =>
      Returned (join_with sep
                  (map (fun x => match x with
                                 | Undefined | Null => ""
                                 | _ => to_string x
                                 end) items))
  | _ => Thrown TypeError
  end.

(** [n === v] for a number [n]. *)
Definition strict_eq_num (n : Z) (v : value) : bool :=
  match v with
  | Num z => Z.eqb n z
  | _ => false
  end.

(** [v === s] for a string [s]. *)
Definition strict_eq_str (v : value) (s : string) : bool :=
  match v with
  | Str s' => String.eqb s' s
  | _ => false
  end.

End JS.
Import JS.

Notation "x <- m ;; k" := (bind m (fun x => k))
  (at level 61, m at next level, right associativity).

(* ================================================================== *)
(** ** The generation service *)

(** What one [ai.models.generateContent] request comes back with, as the
    client observes it. *)
Inductive reply : Type :=
| Rejects                (* the request promise rejects: network, key, quota *)
| NoText                 (* [response.text] is [undefined] or [""] *)
| Malformed              (* [response.text] is text on which [JSON.parse] throws *)
| Json (v : value).      (* [JSON.parse(response.text)] is [v] *)

Definition is_failure (r : reply) : bool :=
  match r with Json _ => false | _ => true end.

(** An [async] function that awaits at most one request. *)
Inductive started : Type :=
| Settled (o : outcome value)
| Awaiting (k : reply -> outcome value).

Definition issues_request (s : started) : bool :=
  match s with Settled _ => false | Awaiting _ => true end.

Definition finish (s : started) (r : reply) : outcome value :=
  match s with
  | Settled o => o
  | Awaiting k => k r
  end.

(** [if (response.text) { return JSON.parse(response.text) } otherwise],
    after [await ai.models.generateContent(...)], inside a [try]. *)
Definition parse_response (r : reply) (otherwise : outcome value)
  : outcome value :=
  match r with
  | Rejects => Thrown NetworkError
  | NoText => otherwise
  | Malformed => Thrown SyntaxError
  | Json v => Returned v
  end.

(* ================================================================== *)
(** ** Schema contracts ([src/types.ts], first part) *)

Module CompanyType.
Definition PRODUCT := "Product-based".
Definition SERVICE := "Service-based".
Definition STARTUP := "Startup".
Definition UNKNOWN := "General".

Definition all : list string := [PRODUCT; SERVICE; STARTUP; UNKNOWN].

Definition mem (v : value) : bool :=
    existsb (strict_eq_str v) all.
End CompanyType.

Definition is_string (v : value) : bool :=
  match v with Str _ => true | _ => false end.

(** [interface JobAnalysis]: the shape a value must have to be one. *)
Module JobAnalysis.
Definition conforms (v : value) : bool :=
    match v with
    | Obj fields =>
        is_string (lookup "role" fields)
        && is_string (lookup "company" fields)
        && CompanyType.mem (lookup "type" fields)
        && match lookup "skills" fields with
           | Arr skills => forallb is_string skills
           | _ => false
           end
        && is_string (lookup "summary" fields)
    | _ => false
    end.
End JobAnalysis.

(** [interface QuizQuestion]: [correctAnswer] is documented as the index of
    the correct option. *)
Module QuizQuestion.
  (** [0 <= correctAnswer < options.length] *)
Definition answer_in_range (q : value) : bool :=
    match q with
    | Obj fields =>
        match lookup "options" fields, lookup "correctAnswer" fields with
        | Arr options, Num n =>
            Z.leb 0 n && Z.ltb n (Z.of_nat (List.length options))
        | _, _ => false
        end
    | _ => false
    end.

Definition all_in_range (quiz : value) : bool :=
    match quiz with
    | Arr questions => forallb answer_in_range questions
    | _ => false
    end.
End QuizQuestion.

(** [interface CodeChallenge]: starter code for the three languages. *)
Module CodeChallenge.
Definition languages : list string := ["python"; "javascript"; "java"].

Definition has_starter (c : value) (language : string) : bool :=
    match c with
    | Obj fields =>
        match lookup "starterCode" fields with
        | Obj codes =>
            match lookup language codes with
            | Str code => truthy_string code
            | _ => false
            end
        | _ => false
        end
    | _ => false
    end.
End CodeChallenge.

(* ================================================================== *)
(** ** The generation client ([src/types.ts], second part:
       [services/gemini]) *)

Module Gemini.

Definition nl : string := String (ascii_of_nat 10) "".

(** The fallback of [analyzeJobDescription]; [company] is
    [userProvidedCompany || "Unknown Company"]. *)
Definition fallbackAnalysis (userProvidedCompany : option string) : value :=
  Obj [ ("role", Str "Software Engineer");
        ("company",
         Str (match userProvidedCompany with
              | Some c => if truthy_string c then c else "Unknown Company"
              | None => "Unknown Company"
              end));
        ("type", Str CompanyType.UNKNOWN);
        ("skills", Arr [Str "Problem Solving"]);
        ("summary", Str "Could not analyze the JD properly. Please try again.") ].

(** The prompt is a template over [userProvidedCompany] alone (an absent
    company prints as "undefined"), the parts are pushed under [if]s: nothing
    can throw before the request. *)
Definition analyzeJobDescription
  (text : string) (imageBase64 userProvidedCompany : option string) : started :=
  Awaiting (fun r =>
    try_catch
      (parse_response r (Thrown (Error "No response text from Gemini")))
      (fun _ => Returned (fallbackAnalysis userProvidedCompany))).

(** Building the study-plan prompt reads [job.role], [job.company],
    [job.type] and calls [job.skills.join(', ')]. *)
Definition studyPlanPrompt (job : value) : outcome unit :=
  _ <- get_prop job "role";;
  _ <- get_prop job "company";;
  _ <- get_prop job "type";;
  skills <- get_prop job "skills";;
  _ <- join_method skills ", ";;
  Returned tt.

Definition generateStudyPlan (job : value) : started :=
  match studyPlanPrompt job with
  | Thrown _ => Settled (Returned (Arr []))
  | Returned _ =>
      Awaiting (fun r =>
        try_catch
          (parse_response r (Thrown (Error "No plan generated")))
          (fun _ => Returned (Arr [])))
  end.

(** Building the quiz prompt reads [job.company] and calls
    [job.skills.join(', ')]. *)
Definition quizPrompt (job : value) : outcome unit :=
  _ <- get_prop job "company";;
  skills <- get_prop job "skills";;
  _ <- join_method skills ", ";;
  Returned tt.

Definition generateQuiz (job : value) : started :=
  match quizPrompt job with
  | Thrown _ => Settled (Returned (Arr []))
  | Returned _ =>
      Awaiting (fun r =>
        try_catch
          (parse_response r (Returned (Arr [])))
          (fun _ => Returned (Arr [])))
  end.

(** Building the challenges prompt reads [job.company] only. *)
Definition challengesPrompt (job : value) : outcome unit :=
  _ <- get_prop job "company";;
  Returned tt.

(** The [catch] block of [generateCodeChallenges]: its description is a
    template over [job.company], evaluated inside the handler. *)
Definition twoSumFallback (job : value) : outcome value :=
  company <- get_prop job "company";;
  Returned
    (Arr [ Obj [ ("title", Str "Two Sum");
                 ("description",
                  Str ("Given an array of integers nums and an integer target, return indices of the two numbers such that they add up to target. (Often asked by "
                       ++ to_string company ++ ")"));
                 ("difficulty", Str "Easy");
                 ("starterCode",
                  Obj [ ("python",
                         Str ("def two_sum(nums, target):" ++ nl ++
                              "    # Write your code here" ++ nl ++
                              "    pass"));
                        ("javascript",
                         Str ("function twoSum(nums, target) {" ++ nl ++
                              "    // Write your code here" ++ nl ++
                              "}"));
                        ("java",
                         Str ("class Solution {" ++ nl ++
                              "    public int[] twoSum(int[] nums, int target) {" ++ nl ++
                              "        // Write your code here" ++ nl ++
                              "        return new int[]{};" ++ nl ++
                              "    }" ++ nl ++
                              "}")) ]) ] ]).

Definition generateCodeChallenges (job : value) : started :=
  match challengesPrompt job with
  | Thrown _ => Settled (twoSumFallback job)
  | Returned _ =>
      Awaiting (fun r =>
        try_catch
          (parse_response r (Thrown (Error "No challenge generated")))
          (fun _ => twoSumFallback job))
  end.

End Gemini.

(* ================================================================== *)
(** ** The orchestration pipeline ([src/App.tsx]) *)

Inductive Tab : Type := ANALYSIS | PLAN | QUIZ | CODE.

Record AppState : Type := mkApp {
  activeTab : Tab;
  loading : bool;
  jobData : value;          (* JobAnalysis | null *)
  trainingPlan : value;     (* TrainingPlan | null *)
  quiz : value;
  challenges : value
}.

Definition initialApp : AppState :=
  mkApp ANALYSIS false Null Null (Arr []) (Arr []).

Inductive GenOp : Type := Analyze | Plan | Quiz | Challenges.

Definition GenOp_eqb (a b : GenOp) : bool :=
  match a, b with
  | Analyze, Analyze | Plan, Plan | Quiz, Quiz | Challenges, Challenges => true
  | _, _ => false
  end.

Inductive event : Type :=
| SetLoading (b : bool)
| SetJobData (v : value)
| SetTrainingPlan (v : value)
| SetQuiz (v : value)
| SetChallenges (v : value)
| SetActiveTab (t : Tab)
| Invoke (op : GenOp)                      (* the operation is called *)
| Request (op : GenOp)                     (* its request leaves the client *)
| Settle (op : GenOp) (o : outcome value)  (* its promise settles *)
| Alert (message : string).

Definition apply_event (st : AppState) (e : event) : AppState :=
  match e with
  | SetLoading b =>
      mkApp (activeTab st) b (jobData st) (trainingPlan st) (quiz st) (challenges st)
  | SetJobData v =>
      mkApp (activeTab st) (loading st) v (trainingPlan st) (quiz st) (challenges st)
  | SetTrainingPlan v =>
      mkApp (activeTab st) (loading st) (jobData st) v (quiz st) (challenges st)
  | SetQuiz v =>
      mkApp (activeTab st) (loading st) (jobData st) (trainingPlan st) v (challenges st)
  | SetChallenges v =>
      mkApp (activeTab st) (loading st) (jobData st) (trainingPlan st) (quiz st) v
  | SetActiveTab t =>
      mkApp t (loading st) (jobData st) (trainingPlan st) (quiz st) (challenges st)
  | Invoke _ | Request _ | Settle _ _ | Alert _ => st
  end.

Definition apply_events (st : AppState) (evs : list event) : AppState :=
  fold_left apply_event evs st.

(** The four operations [App.tsx] imports from [./services/gemini]. *)
Class GenerationClient : Type := {
  client_analyze : string -> option string -> option string -> started;
  client_studyPlan : value -> started;
  client_quiz : value -> started;
  client_challenges : value -> started
}.

#[export] Instance gemini : GenerationClient := {
  client_analyze := Gemini.analyzeJobDescription;
  client_studyPlan := Gemini.generateStudyPlan;
  client_quiz := Gemini.generateQuiz;
  client_challenges := Gemini.generateCodeChallenges
}.

(** The environment of one run: what the service answers to the request of
    each operation, and how long that answer takes. *)
Record World : Type := mkWorld {
  reply_to : GenOp -> reply;
  latency : GenOp -> nat
}.

Section Pipeline.

Context {client : GenerationClient}.
Variable w : World.

Definition call : Type := (GenOp * started)%type.

(** Calling an [async] operation runs it up to its [await], where its
    request leaves, or to its end, where its promise is settled at once. *)
Definition launch_one (c : call) : list event :=
  Invoke (fst c) ::
  match snd c with
  | Awaiting _ => [Request (fst c)]
  | Settled o => [Settle (fst c) o]
  end.

Definition launch (calls : list call) : list event :=
  flat_map launch_one calls.

Definition settle_one (c : call) : event :=
  Settle (fst c) (finish (snd c) (reply_to w (fst c))).

(** The settlements that come with a reply. *)
Definition replies (l : list call) : list event := map settle_one l.

(** [const x = await op(...)] *)
Definition await_op (c : call) : list event * outcome value :=
  (launch_one c ++ replies (filter (fun c => issues_request (snd c)) [c]),
   finish (snd c) (reply_to w (fst c))).

Fixpoint insert_by_latency (c : call) (l : list call) : list call :=
  match l with
  | [] => [c]
  | d :: rest =>
      if Nat.leb (latency w (fst c)) (latency w (fst d))
      then c :: d :: rest
      else d :: insert_by_latency c rest
  end.

Definition sort_by_latency (l : list call) : list call :=
  fold_right insert_by_latency [] l.

(** The calls that settled when they were made. *)
Definition settled_early (calls : list call) : list call :=
  filter (fun c => negb (issues_request (snd c))) calls.

(** The calls that wait for a reply, in the order the replies arrive. *)
Definition pending (calls : list call) : list call :=
  sort_by_latency (filter (fun c => issues_request (snd c)) calls).

(** The order in which the promises of [calls] settle. *)
Definition settle_order (calls : list call) : list call :=
  settled_early calls ++ pending calls.

Definition rejected (c : call) : bool :=
  negb (returns (finish (snd c) (reply_to w (fst c)))).

(** [Promise.all] waits up to the first rejection, or for everything. *)
Fixpoint awaited (l : list call) : list call :=
  match l with
  | [] => []
  | c :: rest => if rejected c then [c] else c :: awaited rest
  end.

Fixpoint late (l : list call) : list call :=
  match l with
  | [] => []
  | c :: rest => if rejected c then rest else late rest
  end.

(** The replies the join waits for, and those that arrive after it has
    rejected; a promise rejected when it was made rejects the join before
    any reply. *)
Definition awaited_replies (calls : list call) : list call :=
  if existsb rejected (settled_early calls) then []
  else awaited (pending calls).

Definition late_replies (calls : list call) : list call :=
  if existsb rejected (settled_early calls) then pending calls
  else late (pending calls).

Definition first_rejection (l : list call) : option error :=
  match find rejected l with
  | Some c =>
      match finish (snd c) (reply_to w (fst c)) with
      | Thrown e => Some e
      | Returned _ => None
      end
  | None => None
  end.

Definition catch_block : list event :=
  [Alert "Something went wrong during analysis. Please try again."].

(** What follows the join when all three promises are fulfilled. *)
Definition on_joined (analysis : value) (results : list (outcome value))
  : outcome (list event) :=
  match results with
  | [Returned planModules; Returned quizQuestions; Returned codeChallenges] =>
      skills <- get_prop analysis "skills";;
      Returned [ SetTrainingPlan (Obj [("techStack", skills);
                                       ("studyPlan", planModules)]);
                 SetQuiz quizQuestions;
                 SetChallenges codeChallenges;
                 SetActiveTab PLAN ]
  | _ => Thrown TypeError
  end.

Definition dependent_calls (analysis : value) : list call :=
  [ (Plan, client_studyPlan analysis);
    (Quiz, client_quiz analysis);
    (Challenges, client_challenges analysis) ].

(** What follows [await Promise.all([...])]: the [catch] block when the
    join rejects or a later statement throws, the four setters otherwise. *)
Definition after_join (analysis : value) : list event :=
  let calls := dependent_calls analysis in
  match first_rejection (settle_order calls) with
  | Some _ => catch_block
  | None =>
      match on_joined analysis
              (map (fun c => finish (snd c) (reply_to w (fst c))) calls) with
      | Thrown _ => catch_block
      | Returned evs => evs
      end
  end.

(** The [try] block with its [catch]: the events up to the [finally], and
    the settlements that arrive after a rejected join has been handled. *)
Definition try_and_catch
  (text : string) (imageBase64 company : option string)
  : list event * list event :=
  let first := (Analyze, client_analyze text imageBase64 company) in
  match snd (await_op first) with
  | Thrown _ => (fst (await_op first) ++ catch_block, [])
  | Returned analysis =>
      (fst (await_op first) ++ [SetJobData analysis]
       ++ launch (dependent_calls analysis)
       ++ replies (awaited_replies (dependent_calls analysis))
       ++ after_join analysis,
       replies (late_replies (dependent_calls analysis)))
  end.

Definition handleAnalyze
  (text : string) (imageBase64 company : option string) : list event :=
  [SetLoading true]
  ++ fst (try_and_catch text imageBase64 company)
  ++ [SetLoading false]
  ++ snd (try_and_catch text imageBase64 company).

(** Whether an exception reaches the [catch] of [handleAnalyze]: thrown by
    the awaited analysis, by the join, or by the statements after it. *)
Definition reaches_catch
  (text : string) (imageBase64 company : option string) : bool :=
  let first := (Analyze, client_analyze text imageBase64 company) in
  match snd (await_op first) with
  | Thrown _ => true
  | Returned analysis =>
      let calls := dependent_calls analysis in
      match first_rejection (settle_order calls) with
      | Some _ => true
      | None =>
          negb (returns (on_joined analysis
                           (map (fun c => finish (snd c) (reply_to w (fst c))) calls)))
      end
  end.

Definition refreshQuiz (st : AppState) : list event :=
  if negb (truthy (jobData st)) then []
  else
    let c := (Quiz, client_quiz (jobData st)) in
    fst (await_op c) ++
    match snd (await_op c) with
    | Returned newQuiz => [SetQuiz newQuiz]
    | Thrown _ => []
    end.

Definition refreshChallenges (st : AppState) : list event :=
  if negb (truthy (jobData st)) then []
  else
    let c := (Challenges, client_challenges (jobData st)) in
    fst (await_op c) ++
    match snd (await_op c) with
    | Returned newChallenges => [SetChallenges newChallenges]
    | Thrown _ => []
    end.

End Pipeline.

(** *** Reading a trace *)

(** The operation [op] completed with a value. *)
Definition completed (op : GenOp) (e : event) : bool :=
  match e with
  | Settle op' (Returned _) => GenOp_eqb op op'
  | _ => false
  end.

(** The operation [op] is called, or its request is sent. *)
Definition issued (op : GenOp) (e : event) : bool :=
  match e with
  | Invoke op' | Request op' => GenOp_eqb op op'
  | _ => false
  end.

Definition invoked (op : GenOp) (e : event) : bool :=
  match e with
  | Invoke op' => GenOp_eqb op op'
  | _ => false
  end.

(** The updates that make up the transition to Ready: the three artifact
    slots and the switch of the active view. *)
Definition ready_update (e : event) : bool :=
  match e with
  | SetTrainingPlan _ | SetQuiz _ | SetChallenges _ | SetActiveTab _ => true
  | _ => false
  end.

Definition is_alert (e : event) : bool :=
  match e with Alert _ => true | _ => false end.

Definition sets_loading (e : event) : bool :=
  match e with SetLoading _ => true | _ => false end.

Definition clears_loading (e : event) : bool :=
  match e with SetLoading false => true | _ => false end.

(** In [tr], every event that satisfies [later] comes after some event that
    satisfies [earlier]. *)
Definition precedes (earlier later : event -> bool) (tr : list event) : Prop :=
  forall pre e post,
    tr = pre ++ e :: post -> later e = true -> existsb earlier pre = true.

Definition dependents : list GenOp := [Plan; Quiz; Challenges].

(** A class of events that holds of no call, request or settlement. *)
Definition quiet (p : event -> bool) : Prop :=
  (forall op, p (Invoke op) = false)
  /\ (forall op, p (Request op) = false)
  /\ (forall op o, p (Settle op o) = false).

(** No event of [tr] satisfies [p]. *)
Definition never (p : event -> bool) (tr : list event) : bool :=
  forallb (fun e => negb (p e)) tr.

(* ================================================================== *)
(** ** The intake form ([src/unnamed/part_000]: the JobAnalyzer component)

    A string stands for the sequence of its code units, each below 256. *)

Module JobAnalyzer.

Inductive Mode : Type := TextMode | ImageMode.      (* 'text' | 'image' *)

Record Form : Type := mkForm {
  activeTab : Mode;
  text : string;
  companyName : string;
  image : option string;       (* a data URL, or null *)
  error : string
}.

Definition initialForm : Form := mkForm TextMode "" "" None "".

Definition setError (f : Form) (msg : string) : Form :=
  mkForm (activeTab f) (text f) (companyName f) (image f) msg.

(** White space and line terminators of [String.prototype.trim] among the
    code units below 256: TAB, LF, VT, FF, CR, SP and NBSP. *)
Definition is_whitespace (c : ascii) : bool :=
  let n := nat_of_ascii c in
  Nat.eqb n 9 || Nat.eqb n 10 || Nat.eqb n 11 || Nat.eqb n 12
  || Nat.eqb n 13 || Nat.eqb n 32 || Nat.eqb n 160.

Fixpoint trimStart (s : string) : string :=
  match s with
  | EmptyString => EmptyString
  | String c rest => if is_whitespace c then trimStart rest else s
  end.

Fixpoint trimEnd (s : string) : string :=
  match s with
  | EmptyString => EmptyString
  | String c rest =>
      match trimEnd rest with
      | EmptyString => if is_whitespace c then EmptyString else String c EmptyString
      | kept => String c kept
      end
  end.

Definition trim (s : string) : string := trimEnd (trimStart s).

(** [s.split(',')] *)
Fixpoint split_comma (s : string) : list string :=
  match s with
  | EmptyString => [EmptyString]
  | String c rest =>
      if Ascii.eqb c ","%char then EmptyString :: split_comma rest
      else match split_comma rest with
           | [] => [String c EmptyString]
           | piece :: pieces => String c piece :: pieces
           end
  end.

(** [image ? image.split(',')[1] : undefined] *)
Definition base64Data (image : option string) : option string :=
  match image with
  | Some url => if truthy_string url then nth_error (split_comma url) 1 else None
  | None => None
  end.

Definition image_loaded (image : option string) : bool :=
  match image with
  | Some url => truthy_string url
  | None => false
  end.

Definition is_text (m : Mode) : bool :=
  match m with TextMode => true | ImageMode => false end.

(** The arguments of [onAnalyze(text, base64Data, companyName)]. *)
Definition Submission : Type := (string * option string * string)%type.

Definition handleSubmit (f : Form) : Form * option Submission :=
  let f := setError f "" in
  if negb (truthy_string (trim (companyName f))) then
    (setError f "Please enter a target company name.", None)
  else if is_text (activeTab f) && negb (truthy_string (trim (text f))) then
    (setError f "Please paste the job description text.", None)
  else if negb (is_text (activeTab f)) && negb (image_loaded (image f)) then
    (setError f "Please upload a job description image.", None)
  else
    (f, Some (text f, base64Data (image f), companyName f)).

(** The inline error box is rendered under [{error && ...}]. *)
Definition error_visible (f : Form) : bool := truthy_string (error f).

(** [<button onClick={handleSubmit} disabled={isLoading}>]: a disabled
    button delivers no click. *)
Definition clickGenerate (isLoading : bool) (f : Form)
  : Form * option Submission :=
  if isLoading then (f, None) else handleSubmit f.

End JobAnalyzer.

Definition Tab_eqb (a b : Tab) : bool :=
  match a, b with
  | ANALYSIS, ANALYSIS | PLAN, PLAN | QUIZ, QUIZ | CODE, CODE => true
  | _, _ => false
  end.

(** The submit-analysis action: [App] renders
    [<JobAnalyzer onAnalyze={handleAnalyze} isLoading={loading} />] on the
    analysis tab only, and the form hands its submission to
    [handleAnalyze]. *)
Definition submitAnalysis {client : GenerationClient} (w : World)
  (app : AppState) (f : JobAnalyzer.Form) : JobAnalyzer.Form * list event :=
  if Tab_eqb (activeTab app) ANALYSIS then
    match JobAnalyzer.clickGenerate (loading app) f with
    | (f', Some (text, imageBase64, company)) =>
        (f', handleAnalyze w text imageBase64 (Some company))
    | (f', None) => (f', [])
    end
  else (f, []).

(* ================================================================== *)
(** ** The quiz runner ([src/components/Quiz.tsx]) *)

Module QuizView.

Record State : Type := mkQuiz {
  activeCategory : option string;
  currentIdx : nat;
  selectedOption : option nat;
  showResult : bool;
  score : nat
}.

Definition initialQuiz : State := mkQuiz None 0 None false 0.

Fixpoint filter_category (cat : string) (qs : list value)
  : outcome (list value) :=
  match qs with
  | [] => Returned []
  | q :: rest =>
      c <- get_prop q "category";;
      kept <- filter_category cat rest;;
      Returned (if strict_eq_str c cat then q :: kept else kept)
  end.

(** [if (!activeCategory) return [];
     return questions.filter(q => q.category === activeCategory)] *)
Definition activeQuestions (questions : value) (st : State)
  : outcome (list value) :=
  match activeCategory st with
  | None => Returned []
  | Some cat =>
      if negb (truthy_string cat) then Returned []
      else match questions with
           | Arr qs => filter_category cat qs
           | _ => Thrown TypeError
           end
  end.

(** [activeQuestions[currentIdx]] *)
Definition currentQ (active : list value) (st : State) : value :=
  nth (currentIdx st) active Undefined.

Definition handleCategorySelect (cat : string) (st : State) : State :=
  mkQuiz (Some cat) 0 None false 0.

Definition handleBackToTopics (st : State) : State :=
  mkQuiz None (currentIdx st) (selectedOption st) (showResult st) (score st).

(** The setters called before the comparison take effect even when reading
    [currentQ.correctAnswer] throws. *)
Definition handleSelect (q : value) (idx : nat) (st : State)
  : State * option error :=
  if showResult st then (st, None)
  else
    let st' := mkQuiz (activeCategory st) (currentIdx st) (Some idx) true (score st) in
    match get_prop q "correctAnswer" with
    | Thrown e => (st', Some e)
    | Returned answer =>
        if strict_eq_num (Z.of_nat idx) answer
        then (mkQuiz (activeCategory st) (currentIdx st) (Some idx) true (score st + 1), None)
        else (st', None)
    end.

Definition handleNext (active : list value) (st : State) : State :=
  if Z.ltb (Z.of_nat (currentIdx st)) (Z.of_nat (List.length active) - 1) then
    mkQuiz (activeCategory st) (currentIdx st + 1) None false (score st)
  else st.

(** What the user can do inside a category run. *)
Inductive action : Type :=
| Select (idx : nat)
| Next
| BackToTopics.

(** A run keeps, next to the component state, the positions (in the active
    list) of the questions for which a selection was accepted. *)
Definition step (questions : value) (s : State * list nat) (a : action)
  : State * list nat :=
  let (st, answered) := s in
  match activeQuestions questions st with
  | Thrown _ => s                       (* the render threw: no handler runs *)
  | Returned active =>
      match a with
      | Select idx =>
          (fst (handleSelect (currentQ active st) idx st),
           if showResult st then answered else currentIdx st :: answered)
      | Next => (handleNext active st, answered)
      | BackToTopics => (handleBackToTopics st, answered)
      end
  end.

Definition run (questions : value) (cat : string) (st : State)
  (actions : list action) : State * list nat :=
  fold_left (step questions) actions (handleCategorySelect cat st, []).

(** The invariant of a category run: the score is bounded by the number of
    answered questions, no question is answered twice, and the answered
    ones lie at or before the current one (strictly before while no result
    is shown). *)
Definition run_invariant (s : State * list nat) : Prop :=
  score (fst s) <= List.length (snd s)
  /\ NoDup (snd s)
  /\ (forall i, In i (snd s) -> i <= currentIdx (fst s))
  /\ (showResult (fst s) = false ->
      forall i, In i (snd s) -> i < currentIdx (fst s)).

End QuizView.

(* ================================================================== *)
(** ** Sample data used to exercise the definitions *)

Module Sample.

Definition amazonAnalysis : value :=
  Obj [ ("role", Str "Backend Engineer");
        ("company", Str "Amazon");
        ("type", Str "Product-based");
        ("skills", Arr [Str "Java"; Str "AWS"]);
        ("summary", Str "Builds backend services on AWS.") ].

(** A reply to the analysis request that conforms to the response schema
    but spells the company its own way. *)
Definition renamedAnalysis : value :=
  Obj [ ("role", Str "Backend Engineer");
        ("company", Str "Amazon Web Services");
        ("type", Str "Product-based");
        ("skills", Arr [Str "Java"; Str "AWS"]);
        ("summary", Str "Builds backend services on AWS.") ].

(** A reply whose [type] is none of the four categories. *)
Definition enterpriseAnalysis : value :=
  Obj [ ("role", Str "Backend Engineer");
        ("company", Str "Amazon");
        ("type", Str "Enterprise");
        ("skills", Arr [Str "Java"; Str "AWS"]);
        ("summary", Str "Builds backend services on AWS.") ].

(** A one-question quiz whose [correctAnswer] is an integer, as the schema
    asks, but one past the last of its four options. *)
Definition quizOutOfRange : value :=
  Arr [ Obj [ ("id", Num 1);
              ("category", Str "Technical");
              ("question", Str "Which keyword declares a constant in Java?");
              ("options", Arr [Str "const"; Str "final"; Str "static"; Str "let"]);
              ("correctAnswer", Num 4);
              ("explanation", Str "final marks a variable as constant.") ] ].

Definition quizInRange : value :=
  Arr [ Obj [ ("id", Num 1);
              ("category", Str "Technical");
              ("question", Str "Which keyword declares a constant in Java?");
              ("options", Arr [Str "const"; Str "final"; Str "static"; Str "let"]);
              ("correctAnswer", Num 1);
              ("explanation", Str "final marks a variable as constant.") ];
        Obj [ ("id", Num 2);
              ("category", Str "Technical");
              ("question", Str "Which collection keeps insertion order?");
              ("options", Arr [Str "HashSet"; Str "ArrayList"]);
              ("correctAnswer", Num 0);
              ("explanation", Str "A HashSet is unordered.") ] ].

Definition challenge (title difficulty : string) : value :=
  Obj [ ("title", Str title);
        ("description", Str "This question has appeared in Amazon interviews.");
        ("difficulty", Str difficulty);
        ("starterCode",
         Obj [ ("python", Str "pass");
               ("javascript", Str "return;");
               ("java", Str "return;") ]) ].

Definition fourChallenges : value :=
  Arr [ challenge "Two Sum" "Easy"; challenge "LRU Cache" "Medium";
        challenge "Word Ladder" "Medium"; challenge "Trapping Rain Water" "Hard" ].

(** A service that fails every request. *)
Definition failingWorld : World := mkWorld (fun _ => Rejects) (fun _ => 0).

(** A service whose reply to the analysis request is the JSON text [null],
    its other replies arriving in the order challenges, quiz, plan. *)
Definition nullAnalysisWorld : World :=
  mkWorld (fun op => match op with
                     | Analyze => Json Null
                     | _ => Json (Arr [])
                     end)
          (fun op => match op with
                     | Plan => 3
                     | Quiz => 2
                     | _ => 1
                     end).

Definition amazonForm : JobAnalyzer.Form :=
  JobAnalyzer.mkForm JobAnalyzer.TextMode "Backend Engineer, Java, AWS" "Amazon" None "".

End Sample.

(** The number of entries of a list value. *)
Definition entries (v : value) : option nat :=
  match v with
  | Arr items => Some (List.length items)
  | _ => None
  end.

(** [null] or [undefined]: the values on which a property read throws. *)
Definition nullish (v : value) : bool :=
  match v with
  | Undefined | Null => true
  | _ => false
  end.

(* ================================================================== *)
(** ** The generation client, continued: code runs and hints
       ([src/types.ts], [runCodeWithAI] and [getCodeHint]) *)

Module CodeService.

(** The fallback of [runCodeWithAI]. *)
Definition executionFallback : value :=
  Obj [ ("status", Str "Error");
        ("errorDetails", Str "Failed to execute code simulation.");
        ("testCases", Arr []);
        ("summary", Str "System error occurred.") ].

(** The prompt is a template over the three arguments, which ToString
    turns into text without throwing. *)
Definition runCodeWithAI (code language problemDescription : value) : started :=
  Awaiting (fun r =>
    try_catch
      (parse_response r (Thrown (Error "No output")))
      (fun _ => Returned executionFallback)).

(** The reply to the hint request, whose text is used as it is:
    [response.text] is a string or [undefined]. *)
Inductive text_reply : Type :=
| TextRejects
| Text (text : option string).

(** [response.text || "Try breaking the problem into smaller steps."] *)
Definition getCodeHint (code language problemDescription : value)
  (r : text_reply) : outcome string :=
  try_catch
    (match r with
     | TextRejects => Thrown NetworkError
     | Text (Some t) =>
         Returned (if truthy_string t then t
                   else "Try breaking the problem into smaller steps.")
     | Text None => Returned "Try breaking the problem into smaller steps."
     end)
    (fun _ => Returned "Analyze the constraints and edge cases carefully.").

End CodeService.

(* ================================================================== *)
(** ** Navigation and tab content ([src/App.tsx], the render part) *)

Definition setTab (app : AppState) (t : Tab) : AppState :=
  apply_event app (SetActiveTab t).

Definition isLandingPage (app : AppState) : bool :=
  Tab_eqb (activeTab app) ANALYSIS.

(** The clicks that call [setActiveTab]: the four sidebar buttons, the
    "View Generated Plan" link under the last analysis, and the back button
    of the study plan. *)
Inductive NavClick : Type :=
| ClickAnalyzer
| ClickStudyPlan
| ClickAssessment
| ClickCodingLab
| ClickViewGeneratedPlan
| ClickBackToDashboard.

(** The sidebar is rendered off the landing page only, its last three
    buttons are [disabled={!jobData}]; the link is rendered on the analysis
    tab under [{jobData && ...}]; the study plan is rendered on the plan tab
    under [jobData && trainingPlan].  A click on what is not rendered, or
    on a disabled button, does not happen. *)
Definition navigate (app : AppState) (c : NavClick) : AppState :=
  match c with
  | ClickAnalyzer =>
      if isLandingPage app then app else setTab app ANALYSIS
  | ClickStudyPlan =>
      if isLandingPage app || negb (truthy (jobData app)) then app
      else setTab app PLAN
  | ClickAssessment =>
      if isLandingPage app || negb (truthy (jobData app)) then app
      else setTab app QUIZ
  | ClickCodingLab =>
      if isLandingPage app || negb (truthy (jobData app)) then app
      else setTab app CODE
  | ClickViewGeneratedPlan =>
      if isLandingPage app && truthy (jobData app) then setTab app PLAN
      else app
  | ClickBackToDashboard =>
      if Tab_eqb (activeTab app) PLAN && truthy (jobData app)
         && truthy (trainingPlan app)
      then setTab app ANALYSIS
      else app
  end.




(** The events that change the application state. *)
Definition is_setter (e : event) : bool :=
  match e with
  | Invoke _ | Request _ | Settle _ _ | Alert _ => false
  | _ => true
  end.

Definition sets_jobData (e : event) : bool :=
  match e with SetJobData _ => true | _ => false end.

Definition is_invoke (e : event) : bool :=
  match e with Invoke _ => true | _ => false end.

(* ================================================================== *)
(** ** The intake form, continued *)

(** Only white space, or nothing at all. *)
Fixpoint blank (s : string) : bool :=
  match s with
  | EmptyString => true
  | String c rest => JobAnalyzer.is_whitespace c && blank rest
  end.

Fixpoint contains (c : ascii) (s : string) : bool :=
  match s with
  | EmptyString => false
  | String d rest => Ascii.eqb d c || contains c rest
  end.

(* ================================================================== *)
(** ** The quiz runner, continued: what is rendered *)

Module QuizScreen.

Inductive Screen : Type := LoadingScreen | TopicScreen | QuestionScreen.

(** The three returns of the component, for an array of questions:
    [questions.length === 0], then [!activeCategory], then the quiz view. *)
Definition screen (questions : list value) (st : QuizView.State) : Screen :=
  if Nat.eqb (List.length questions) 0 then LoadingScreen
  else match QuizView.activeCategory st with
       | None => TopicScreen
       | Some cat => if truthy_string cat then QuestionScreen else TopicScreen
       end.

(** The first thing the quiz view reads of the current question:
    [{currentQ.question}], in its heading. *)
Definition questionHeading (questions : value) (st : QuizView.State)
  : outcome value :=
  active <- QuizView.activeQuestions questions st;;
  get_prop (QuizView.currentQ active st) "question".


(** The action leaves the category run. *)
Definition leaves (a : QuizView.action) : bool :=
  match a with
  | QuizView.BackToTopics => true
  | _ => false
  end.

End QuizScreen.

(* ================================================================== *)
(** ** The coding lab ([src/components/CodeEditor.tsx]) *)

Module CodeEditor.

Inductive Language : Type := python | javascript | java.

Definition language_name (l : Language) : string :=
  match l with
  | python => "python"
  | javascript => "javascript"
  | java => "java"
  end.

Inductive PanelTab : Type := DescriptionTab | OutputTab | HintTab.

Record Editor : Type := mkEditor {
  activeChallengeIdx : nat;
  language : Language;
  code : value;
  activeTab : PanelTab;
  isRunning : bool;
  result : value;            (* ExecutionResult | null *)
  hint : string;
  loadingHint : bool
}.


(** [challenges[activeChallengeIdx]], for an array of challenges. *)
Definition challenge (challenges : list value) (st : Editor) : value :=
  nth (activeChallengeIdx st) challenges Undefined.

(** The [catch] of [handleRun]. *)
Definition connectFailure : value :=
  Obj [ ("status", Str "Error");
        ("summary", Str "Failed to connect to execution engine.");
        ("testCases", Arr []) ].

(** [setIsRunning(true); setActiveTab('output')] *)
Definition handleRun_start (st : Editor) : Editor :=
  mkEditor (activeChallengeIdx st) (language st) (code st) OutputTab true
           (result st) (hint st) (loadingHint st).

(** What [handleRun] hands to [setResult]: the result of the run, or the
    connection failure when the [try] throws; [challenge.description] is
    read inside the [try]. *)
Definition handleRun_result (current : value) (r : reply) (st : Editor)
  : outcome value :=
  try_catch
    (description <- get_prop current "description";;
     finish (CodeService.runCodeWithAI (code st) (Str (language_name (language st)))
               description) r)
    (fun _ => Returned connectFailure).

(** [setResult(res)] and, in the [finally], [setIsRunning(false)], on the
    state as it is when the run comes back. *)
Definition handleRun_finish (res : outcome value) (now : Editor) : Editor :=
  mkEditor (activeChallengeIdx now) (language now) (code now) (activeTab now)
           false
           (match res with Returned v => v | Thrown _ => result now end)
           (hint now) (loadingHint now).

Definition handleRun (current : value) (r : reply) (st : Editor) : Editor :=
  handleRun_finish (handleRun_result current r st) (handleRun_start st).

(** [handleGetHint] has no [try]: when reading [challenge.description]
    throws, the two setters after the [await] are not reached. *)
Definition handleGetHint (current : value) (r : CodeService.text_reply)
  (st : Editor) : Editor * option error :=
  let started :=
    mkEditor (activeChallengeIdx st) (language st) (code st) HintTab
             (isRunning st) (result st) (hint st) true in
  match (description <- get_prop current "description";;
         CodeService.getCodeHint (code st) (Str (language_name (language st)))
           description r) with
  | Returned h =>
      (mkEditor (activeChallengeIdx st) (language st) (code st) HintTab
                (isRunning st) (result st) h false, None)
  | Thrown e => (started, Some e)
  end.

(** The hint panel shows the hint under [loadingHint ? ... : hint ? ...]. *)
Definition hint_shown (st : Editor) : bool :=
  negb (loadingHint st) && truthy_string (hint st).

Definition quote : ascii := ascii_of_nat 34.

(** The replacement function of the [code.replace] that
    [getHighlightedCode] falls back to when Prism or the grammar is
    missing: the ampersand, the two angle brackets and the two quotes are
    replaced by their entities, globally. *)
Definition escapeChar (c : ascii) : string :=
  if Ascii.eqb c "&"%char then "&amp;"
  else if Ascii.eqb c "<"%char then "&lt;"
  else if Ascii.eqb c ">"%char then "&gt;"
  else if Ascii.eqb c quote then "&quot;"
  else if Ascii.eqb c "'"%char then "&#039;"
  else String c EmptyString.

(** The five characters the replacement looks for. *)
Definition special (c : ascii) : bool :=
  Ascii.eqb c "&"%char || Ascii.eqb c "<"%char || Ascii.eqb c ">"%char
  || Ascii.eqb c quote || Ascii.eqb c "'"%char.

Fixpoint escapeHtml (code : string) : string :=
  match code with
  | EmptyString => EmptyString
  | String c rest => (escapeChar c ++ escapeHtml rest)%string
  end.

Definition newline : ascii := ascii_of_nat 10.

(** [s.split(sep)] for a separator of one character. *)
Fixpoint split_char (sep : ascii) (s : string) : list string :=
  match s with
  | EmptyString => [EmptyString]
  | String c rest =>
      if Ascii.eqb c sep then EmptyString :: split_char sep rest
      else match split_char sep rest with
           | [] => [String c EmptyString]
           | piece :: pieces => String c piece :: pieces
           end
  end.

(** [code.split('\n').length] *)
Definition lineCount (code : string) : nat :=
  List.length (split_char newline code).

Fixpoint count_char (c : ascii) (s : string) : nat :=
  match s with
  | EmptyString => 0
  | String d rest => (if Ascii.eqb d c then 1 else 0) + count_char c rest
  end.




End CodeEditor.

(* ================================================================== *)
(** * Properties of the generation client *)

Section ClientFacts.

Import Gemini.

Lemma parse_response_json (v : value) (otherwise : outcome value) :
  parse_response (Json v) otherwise = Returned v.
Proof. reflexivity. Qed.

Lemma analyze_always_awaits text image company :
  issues_request (analyzeJobDescription text image company) = true.
Proof. reflexivity. Qed.

Lemma analyze_finish text image company (r : reply) :
  finish (analyzeJobDescription text image company) r =
  Returned (match r with
            | Json v => v
            | _ => fallbackAnalysis company
            end).
Proof. destruct r; reflexivity. Qed.

Lemma generateQuiz_finish (job : value) (r : reply) :
  finish (generateQuiz job) r = Returned (Arr [])
  \/ exists v, r = Json v /\ finish (generateQuiz job) r = Returned v.
Proof.
  unfold generateQuiz.
  destruct (quizPrompt job); [| left; reflexivity].
  destruct r; simpl; [left; reflexivity .. |].
  right. exists v. split; reflexivity.
Qed.

Lemma conforms_company (job : value) :
  JobAnalysis.conforms job = true ->
  exists company, get_prop job "company" = Returned (Str company).
Proof.
  destruct job; simpl; try discriminate.
  intros H. repeat (apply andb_prop in H; destruct H as [H ?]).
  destruct (lookup "company" fields); try discriminate.
  eexists; reflexivity.
Qed.

Lemma challenges_finish_conforming (job : value) (r : reply) :
  JobAnalysis.conforms job = true ->
  finish (generateCodeChallenges job) r =
  match r with
  | Json v => Returned v
  | _ => twoSumFallback job
  end.
Proof.
  intros H. destruct (conforms_company job H) as [c Hc].
  unfold generateCodeChallenges, challengesPrompt. rewrite Hc. simpl.
  destruct r; reflexivity.
Qed.

End ClientFacts.

(** C2. Whatever fails inside [analyzeJobDescription] (the request rejects,
    the response carries no text, the text is not JSON), the operation
    returns the fixed fallback analysis: role "Software Engineer", the
    supplied company name when it is non-empty and "Unknown Company"
    otherwise, type General, skills ["Problem Solving"] and the summary that
    reports the failure; and for no reply at all does it throw. *)
Theorem analyze_fallback_on_failure :
  forall (text : string) (imageBase64 company : option string) (r : reply),
    returns (finish (Gemini.analyzeJobDescription text imageBase64 company) r) = true
    /\ (is_failure r = true ->
        finish (Gemini.analyzeJobDescription text imageBase64 company) r =
        Returned
          (Obj [ ("role", Str "Software Engineer");
                 ("company",
                  Str (match company with
                       | Some c => if String.eqb c "" then "Unknown Company" else c
                       | None => "Unknown Company"
                       end));
                 ("type", Str "General");
                 ("skills", Arr [Str "Problem Solving"]);
                 ("summary",
                  Str "Could not analyze the JD properly. Please try again.") ])).
Proof.
  intros text imageBase64 company r.
  rewrite analyze_finish. split; [reflexivity |].
  intros Hfail. unfold Gemini.fallbackAnalysis, truthy_string.
  destruct r; try discriminate;
    destruct company as [c |]; try reflexivity;
    destruct (String.eqb c ""); reflexivity.
Qed.

Lemma analyze_fallback_on_failure_witness :
  is_failure Malformed = true
  /\ finish (Gemini.analyzeJobDescription "Backend Engineer, Java, AWS" None (Some "Amazon"))
            Malformed =
     Returned
       (Obj [ ("role", Str "Software Engineer");
              ("company", Str "Amazon");
              ("type", Str "General");
              ("skills", Arr [Str "Problem Solving"]);
              ("summary",
               Str "Could not analyze the JD properly. Please try again.") ]).
Proof.
  split; [reflexivity |].
  apply (proj2 (analyze_fallback_on_failure
                  "Backend Engineer, Java, AWS" None (Some "Amazon") Malformed)).
  reflexivity.
Defined.

(** C5 (as stated) fails: for a valid submission with company "Amazon",
    a successful reply is returned as it is, so the company of the result
    is the one the service wrote, and its type need not be one of the four
    categories. *)
Lemma analyze_company_type_counterexample :
  truthy_string "Amazon" = true
  /\ finish (Gemini.analyzeJobDescription "Backend Engineer, Java, AWS" None (Some "Amazon"))
            (Json Sample.renamedAnalysis) = Returned Sample.renamedAnalysis
  /\ get_prop Sample.renamedAnalysis "company" <> Returned (Str "Amazon")
  /\ finish (Gemini.analyzeJobDescription "Backend Engineer, Java, AWS" None (Some "Amazon"))
            (Json Sample.enterpriseAnalysis) = Returned Sample.enterpriseAnalysis
  /\ get_prop Sample.enterpriseAnalysis "type" = Returned (Str "Enterprise")
  /\ CompanyType.mem (Str "Enterprise") = false.
Proof.
  repeat split; try reflexivity. simpl. discriminate.
Qed.

(** C5 (amended). For a non-empty company name: when the request fails,
    the analysis returned has the supplied company name as its company and
    General, one of the four categories, as its type; when the request
    succeeds, the analysis returned is the parsed reply itself, unchanged
    and unchecked. *)
Theorem analyze_company_and_type :
  forall (text : string) (imageBase64 : option string) (company : string)
         (r : reply),
    truthy_string company = true ->
    (is_failure r = true ->
     exists analysis,
       finish (Gemini.analyzeJobDescription text imageBase64 (Some company)) r
       = Returned analysis
       /\ get_prop analysis "company" = Returned (Str company)
       /\ get_prop analysis "type" = Returned (Str CompanyType.UNKNOWN)
       /\ CompanyType.mem (Str CompanyType.UNKNOWN) = true)
    /\ (forall v, r = Json v ->
        finish (Gemini.analyzeJobDescription text imageBase64 (Some company)) r
        = Returned v).
Proof.
  intros text imageBase64 company r Hcompany. split.
  - intros Hfail. rewrite analyze_finish.
    exists (Gemini.fallbackAnalysis (Some company)).
    split; [destruct r; try discriminate; reflexivity |].
    unfold Gemini.fallbackAnalysis. rewrite Hcompany.
    repeat split; reflexivity.
  - intros v ->. reflexivity.
Qed.

Lemma analyze_company_and_type_witness :
  truthy_string "Amazon" = true
  /\ is_failure Rejects = true
  /\ exists analysis,
       finish (Gemini.analyzeJobDescription "Backend Engineer, Java, AWS" None (Some "Amazon"))
              Rejects = Returned analysis
       /\ get_prop analysis "company" = Returned (Str "Amazon")
       /\ get_prop analysis "type" = Returned (Str CompanyType.UNKNOWN)
       /\ CompanyType.mem (Str CompanyType.UNKNOWN) = true.
Proof.
  split; [reflexivity |]. split; [reflexivity |].
  apply (proj1 (analyze_company_and_type
                  "Backend Engineer, Java, AWS" None "Amazon" Rejects eq_refl)).
  reflexivity.
Defined.

(** C3 (as stated) fails: the reply is returned as parsed, and a reply
    whose single question has four options and [correctAnswer] 4 comes back
    with that index, which is not below the number of options. *)
Lemma generateQuiz_index_counterexample :
  JobAnalysis.conforms Sample.amazonAnalysis = true
  /\ finish (Gemini.generateQuiz Sample.amazonAnalysis) (Json Sample.quizOutOfRange)
     = Returned Sample.quizOutOfRange
  /\ QuizQuestion.all_in_range Sample.quizOutOfRange = false.
Proof. repeat split. Qed.

(** C3 (amended). For every job and every reply, [generateQuiz] returns
    either the empty list (on any failure) or the parsed reply itself,
    unchecked; so the entries it returns have [correctAnswer] within their
    [options] whenever the entries of the reply have, and always on the
    empty fallback. *)
Theorem generateQuiz_returns_reply_or_empty :
  forall (job : value) (r : reply),
    (finish (Gemini.generateQuiz job) r = Returned (Arr [])
     \/ exists v, r = Json v /\ finish (Gemini.generateQuiz job) r = Returned v)
    /\ (is_failure r = true ->
        finish (Gemini.generateQuiz job) r = Returned (Arr []))
    /\ (forall v, r = Json v -> QuizQuestion.all_in_range v = true ->
        exists quiz, finish (Gemini.generateQuiz job) r = Returned quiz
                     /\ QuizQuestion.all_in_range quiz = true).
Proof.
  intros job r. split; [apply generateQuiz_finish |]. split.
  - intros Hfail. destruct (generateQuiz_finish job r) as [H | [v [-> _]]];
      [exact H | discriminate].
  - intros v Hr Hv.
    destruct (generateQuiz_finish job r) as [H | [v' [Hr' H]]].
    + exists (Arr []). split; [exact H | reflexivity].
    + exists v'. split; [exact H |]. congruence.
Qed.

Lemma generateQuiz_returns_reply_or_empty_witness :
  QuizQuestion.all_in_range Sample.quizInRange = true
  /\ exists quiz,
       finish (Gemini.generateQuiz Sample.amazonAnalysis) (Json Sample.quizInRange)
       = Returned quiz
       /\ QuizQuestion.all_in_range quiz = true.
Proof.
  split; [reflexivity |].
  apply (proj2 (proj2 (generateQuiz_returns_reply_or_empty
                         Sample.amazonAnalysis (Json Sample.quizInRange)))
           Sample.quizInRange eq_refl).
  reflexivity.
Defined.

(** C4 (as stated) fails: the reply is returned as parsed, whatever its
    length; an empty reply gives an empty list and a reply of four entries
    gives four, neither being the three generated entries nor the Two Sum
    fallback. *)
Lemma generateCodeChallenges_count_counterexample :
  JobAnalysis.conforms Sample.amazonAnalysis = true
  /\ finish (Gemini.generateCodeChallenges Sample.amazonAnalysis) (Json (Arr []))
     = Returned (Arr [])
  /\ entries (Arr []) = Some 0
  /\ finish (Gemini.generateCodeChallenges Sample.amazonAnalysis)
            (Json Sample.fourChallenges)
     = Returned Sample.fourChallenges
  /\ entries Sample.fourChallenges = Some 4.
Proof. repeat split. Qed.

(** C4 (amended). For every JobAnalysis, [generateCodeChallenges] returns
    either the parsed reply itself, whatever its length, or the Two Sum
    fallback; when the request fails the value returned is exactly that
    fallback: one entry, titled "Two Sum", of difficulty Easy, whose
    description names the company of the job and whose starter code covers
    python, javascript and java. *)
Theorem generateCodeChallenges_reply_or_two_sum :
  forall (job : value) (r : reply),
    JobAnalysis.conforms job = true ->
    exists (company : string) (fallback : value),
      get_prop job "company" = Returned (Str company)
      /\ Gemini.twoSumFallback job = Returned (Arr [fallback])
      /\ get_prop fallback "title" = Returned (Str "Two Sum")
      /\ get_prop fallback "difficulty" = Returned (Str "Easy")
      /\ get_prop fallback "description" =
         Returned (Str ("Given an array of integers nums and an integer target, return indices of the two numbers such that they add up to target. (Often asked by "
                        ++ company ++ ")"))
      /\ forallb (CodeChallenge.has_starter fallback) CodeChallenge.languages = true
      /\ (is_failure r = true ->
          finish (Gemini.generateCodeChallenges job) r = Returned (Arr [fallback]))
      /\ (forall v, r = Json v ->
          finish (Gemini.generateCodeChallenges job) r = Returned v).
Proof.
  intros job r Hjob.
  destruct (conforms_company job Hjob) as [company Hcompany].
  exists company. eexists.
  split; [exact Hcompany |].
  split; [unfold Gemini.twoSumFallback; rewrite Hcompany; reflexivity |].
  repeat (split; [reflexivity |]).
  rewrite (challenges_finish_conforming job r Hjob).
  unfold Gemini.twoSumFallback. rewrite Hcompany. split.
  - intros Hfail. destruct r; try discriminate; reflexivity.
  - intros v ->. reflexivity.
Qed.

Lemma generateCodeChallenges_reply_or_two_sum_witness :
  JobAnalysis.conforms Sample.amazonAnalysis = true
  /\ exists (company : string) (fallback : value),
      get_prop Sample.amazonAnalysis "company" = Returned (Str company)
      /\ Gemini.twoSumFallback Sample.amazonAnalysis = Returned (Arr [fallback])
      /\ get_prop fallback "title" = Returned (Str "Two Sum")
      /\ get_prop fallback "difficulty" = Returned (Str "Easy")
      /\ get_prop fallback "description" =
         Returned (Str ("Given an array of integers nums and an integer target, return indices of the two numbers such that they add up to target. (Often asked by "
                        ++ company ++ ")"))
      /\ forallb (CodeChallenge.has_starter fallback) CodeChallenge.languages = true
      /\ (is_failure NoText = true ->
          finish (Gemini.generateCodeChallenges Sample.amazonAnalysis) NoText
          = Returned (Arr [fallback]))
      /\ (forall v, NoText = Json v ->
          finish (Gemini.generateCodeChallenges Sample.amazonAnalysis) NoText
          = Returned v).
Proof.
  split; [reflexivity |].
  apply (generateCodeChallenges_reply_or_two_sum Sample.amazonAnalysis NoText).
  reflexivity.
Defined.

(* ================================================================== *)
(** * Properties of the intake form *)

Section FormFacts.

Import JobAnalyzer.

Lemma truthy_string_empty (s : string) :
  s = "" -> truthy_string s = false.
Proof. intros ->. reflexivity. Qed.

Lemma truthy_string_nonempty (s : string) :
  s <> "" -> truthy_string s = true.
Proof.
  intros H. unfold truthy_string.
  destruct (String.eqb_spec s ""); [contradiction | reflexivity].
Qed.

Lemma handleSubmit_cases (f : Form) :
  (exists msg, msg <> "" /\ handleSubmit f = (setError f msg, None))
  \/ (truthy_string (trim (companyName f)) = true
      /\ (activeTab f = TextMode -> truthy_string (trim (text f)) = true)
      /\ (activeTab f = ImageMode -> image_loaded (image f) = true)
      /\ handleSubmit f
         = (setError f "", Some (text f, base64Data (image f), companyName f))).
Proof.
  unfold handleSubmit. simpl.
  destruct (truthy_string (trim (companyName f))); simpl.
  2: { left. eexists. split; [| reflexivity]. discriminate. }
  destruct (activeTab f); simpl.
  - destruct (truthy_string (trim (text f))); simpl.
    + right. repeat split; try reflexivity. discriminate.
    + left. eexists. split; [| reflexivity]. discriminate.
  - destruct (image_loaded (image f)); simpl.
    + right. repeat split; try reflexivity. discriminate.
    + left. eexists. split; [| reflexivity]. discriminate.
Qed.

End FormFacts.

(** C7. The submit handler validates before it hands anything to the
    pipeline: with a company name that is empty once trimmed, or in text
    mode a text that is empty once trimmed, or in image mode no image
    loaded, the submission is rejected, a non-empty inline error is set and
    shown, [onAnalyze] is not called; so the submit-analysis action performs
    no generation call and no state update, and the application state is
    the one it was. *)
Theorem handleSubmit_rejects_invalid :
  forall (f : JobAnalyzer.Form),
    (JobAnalyzer.trim (JobAnalyzer.companyName f) = ""
     \/ (JobAnalyzer.activeTab f = JobAnalyzer.TextMode
         /\ JobAnalyzer.trim (JobAnalyzer.text f) = "")
     \/ (JobAnalyzer.activeTab f = JobAnalyzer.ImageMode
         /\ JobAnalyzer.image_loaded (JobAnalyzer.image f) = false)) ->
    exists msg : string,
      JobAnalyzer.handleSubmit f = (JobAnalyzer.setError f msg, None)
      /\ JobAnalyzer.error_visible (JobAnalyzer.setError f msg) = true
      /\ forall (client : GenerationClient) (w : World) (app : AppState),
           snd (submitAnalysis w app f) = []
           /\ apply_events app (snd (submitAnalysis w app f)) = app
           /\ (activeTab app = ANALYSIS -> loading app = false ->
               fst (submitAnalysis w app f) = JobAnalyzer.setError f msg).
Proof.
  intros f Hinvalid.
  destruct (handleSubmit_cases f) as [[msg [Hmsg Hrej]] | [Hc [Ht [Hi _]]]].
  - exists msg. split; [exact Hrej |].
    split; [apply truthy_string_nonempty; exact Hmsg |].
    intros client w app. unfold submitAnalysis, JobAnalyzer.clickGenerate.
    destruct (Tab_eqb (activeTab app) ANALYSIS) eqn:Htab.
    + destruct (loading app) eqn:Hload.
      * repeat split. intros _ Hfalse. discriminate.
      * rewrite Hrej. repeat split.
    + repeat split. intros Hana. rewrite Hana in Htab. discriminate.
  - exfalso. destruct Hinvalid as [H | [[Hm H] | [Hm H]]].
    + rewrite H in Hc. discriminate.
    + rewrite H in Ht. specialize (Ht Hm). discriminate.
    + rewrite H in Hi. specialize (Hi Hm). discriminate.
Qed.

Lemma handleSubmit_rejects_invalid_witness :
  exists msg : string,
    JobAnalyzer.handleSubmit
      (JobAnalyzer.mkForm JobAnalyzer.TextMode "Backend Engineer, Java, AWS" "" None "")
    = (JobAnalyzer.setError
         (JobAnalyzer.mkForm JobAnalyzer.TextMode "Backend Engineer, Java, AWS" "" None "")
         msg, None)
    /\ JobAnalyzer.error_visible
         (JobAnalyzer.setError
            (JobAnalyzer.mkForm JobAnalyzer.TextMode "Backend Engineer, Java, AWS" "" None "")
            msg) = true
    /\ forall (client : GenerationClient) (w : World) (app : AppState),
         snd (submitAnalysis w app
                (JobAnalyzer.mkForm JobAnalyzer.TextMode "Backend Engineer, Java, AWS" "" None ""))
         = []
         /\ apply_events app
              (snd (submitAnalysis w app
                      (JobAnalyzer.mkForm JobAnalyzer.TextMode "Backend Engineer, Java, AWS" "" None "")))
            = app
         /\ (activeTab app = ANALYSIS -> loading app = false ->
             fst (submitAnalysis w app
                    (JobAnalyzer.mkForm JobAnalyzer.TextMode "Backend Engineer, Java, AWS" "" None ""))
             = JobAnalyzer.setError
                 (JobAnalyzer.mkForm JobAnalyzer.TextMode "Backend Engineer, Java, AWS" "" None "")
                 msg).
Proof.
  apply (handleSubmit_rejects_invalid
           (JobAnalyzer.mkForm JobAnalyzer.TextMode "Backend Engineer, Java, AWS" "" None "")).
  left. reflexivity.
Defined.

(* ================================================================== *)
(** * Properties of the refresh actions *)

(** C9. Without a stored analysis the two refresh actions do nothing: with
    [jobData] null, [refreshQuiz] and [refreshChallenges] return at once,
    call no generation operation, and leave every slot of the application
    state as it was. *)
Theorem refresh_without_analysis_is_noop :
  forall (client : GenerationClient) (w : World) (app : AppState),
    jobData app = Null ->
    refreshQuiz w app = []
    /\ refreshChallenges w app = []
    /\ apply_events app (refreshQuiz w app) = app
    /\ apply_events app (refreshChallenges w app) = app.
Proof.
  intros client w app Hjob.
  unfold refreshQuiz, refreshChallenges. rewrite Hjob. simpl.
  repeat split.
Qed.

Lemma refresh_without_analysis_is_noop_witness :
  refreshQuiz (mkWorld (fun _ => Json Sample.quizInRange) (fun _ => 0)) initialApp = []
  /\ refreshChallenges (mkWorld (fun _ => Json Sample.quizInRange) (fun _ => 0)) initialApp = []
  /\ apply_events initialApp
       (refreshQuiz (mkWorld (fun _ => Json Sample.quizInRange) (fun _ => 0)) initialApp)
     = initialApp
  /\ apply_events initialApp
       (refreshChallenges (mkWorld (fun _ => Json Sample.quizInRange) (fun _ => 0)) initialApp)
     = initialApp.
Proof.
  apply (refresh_without_analysis_is_noop gemini
           (mkWorld (fun _ => Json Sample.quizInRange) (fun _ => 0)) initialApp).
  reflexivity.
Defined.

(* ================================================================== *)
(** * Properties of the quiz runner *)

Section QuizFacts.

Import QuizView.

Lemma handleSelect_shown (q : value) (idx : nat) (st : State) :
  showResult st = true -> handleSelect q idx st = (st, None).
Proof. intros H. unfold handleSelect. rewrite H. reflexivity. Qed.

Lemma handleSelect_fresh (q : value) (idx : nat) (st : State) :
  showResult st = false ->
  exists gain : nat,
    gain <= 1
    /\ fst (handleSelect q idx st)
       = mkQuiz (activeCategory st) (currentIdx st) (Some idx) true (score st + gain)
    /\ (forall answer, get_prop q "correctAnswer" = Returned answer ->
        gain = if strict_eq_num (Z.of_nat idx) answer then 1 else 0).
Proof.
  intros H. unfold handleSelect. rewrite H.
  destruct (get_prop q "correctAnswer") as [answer | e].
  - destruct (strict_eq_num (Z.of_nat idx) answer) eqn:Heq.
    + exists 1. repeat split; [lia |]. intros a Ha. inversion Ha; subst.
      rewrite Heq. reflexivity.
    + exists 0. rewrite Nat.add_0_r. repeat split; [lia |].
      intros a Ha. inversion Ha; subst. rewrite Heq. reflexivity.
  - exists 0. rewrite Nat.add_0_r. repeat split; [lia |]. discriminate.
Qed.

Lemma run_invariant_start (cat : string) (st : State) :
  run_invariant (handleCategorySelect cat st, []).
Proof.
  unfold run_invariant. simpl.
  split; [apply le_n |]. split; [constructor |].
  split; [intros i [] | intros _ i []].
Qed.

Lemma run_invariant_step (questions : value) (s : State * list nat) (a : action) :
  run_invariant s -> run_invariant (step questions s a).
Proof.
  destruct s as [st answered]. unfold step.
  destruct (activeQuestions questions st) as [active | e]; [| tauto].
  intros (Hscore & Hnodup & Hle & Hlt). simpl in *.
  destruct a as [idx | |].
  - destruct (showResult st) eqn:Hshown.
    + rewrite (handleSelect_shown _ _ _ Hshown). simpl.
      unfold run_invariant. simpl. rewrite Hshown. repeat split; auto.
    + destruct (handleSelect_fresh (currentQ active st) idx st Hshown)
        as (gain & Hgain & Hst & _).
      rewrite Hst. unfold run_invariant. simpl. repeat split.
      * lia.
      * constructor; [| exact Hnodup].
        intros Hin. specialize (Hlt eq_refl _ Hin). lia.
      * intros i [<- | Hin]; [lia | auto].
      * discriminate.
  - unfold handleNext.
    destruct (Z.ltb (Z.of_nat (currentIdx st)) (Z.of_nat (List.length active) - 1)).
    + unfold run_invariant. simpl. repeat split; auto.
      * intros i Hin. specialize (Hle _ Hin). lia.
      * intros _ i Hin. specialize (Hle _ Hin). lia.
    + unfold run_invariant. simpl. repeat split; auto.
  - unfold run_invariant. simpl. repeat split; auto.
Qed.

Lemma run_invariant_fold (questions : value) (actions : list action) :
  forall s, run_invariant s ->
            run_invariant (fold_left (step questions) actions s).
Proof.
  induction actions as [| a actions IH]; intros s Hs; simpl.
  - exact Hs.
  - apply IH. apply run_invariant_step. exact Hs.
Qed.

End QuizFacts.

(** C10. In a category run, once the result of the current question is
    shown a further selection changes nothing; a selection made while no
    result is shown records the option, shows the result and adds one to the
    score exactly when the selected index is the question's
    [correctAnswer]; and after any sequence of actions the score is at most
    the number of questions answered, each question being answered at most
    once. *)
Theorem quiz_score_at_most_once_per_question :
  (forall (q : value) (idx : nat) (st : QuizView.State),
      QuizView.showResult st = true ->
      QuizView.handleSelect q idx st = (st, None))
  /\ (forall (q answer : value) (idx : nat) (st : QuizView.State),
      QuizView.showResult st = false ->
      get_prop q "correctAnswer" = Returned answer ->
      QuizView.handleSelect q idx st
      = (QuizView.mkQuiz (QuizView.activeCategory st) (QuizView.currentIdx st)
           (Some idx) true
           (QuizView.score st
            + (if strict_eq_num (Z.of_nat idx) answer then 1 else 0)),
         None))
  /\ (forall (questions : value) (cat : string) (st0 : QuizView.State)
             (actions : list QuizView.action),
      QuizView.score (fst (QuizView.run questions cat st0 actions))
      <= List.length (snd (QuizView.run questions cat st0 actions))
      /\ NoDup (snd (QuizView.run questions cat st0 actions))).
Proof.
  split; [exact handleSelect_shown |]. split.
  - intros q answer idx st Hshown Hanswer.
    unfold QuizView.handleSelect. rewrite Hshown, Hanswer.
    destruct (strict_eq_num (Z.of_nat idx) answer);
      [reflexivity | rewrite Nat.add_0_r; reflexivity].
  - intros questions cat st0 actions. unfold QuizView.run.
    destruct (run_invariant_fold questions actions
                (QuizView.handleCategorySelect cat st0, [])
                (run_invariant_start cat st0)) as (Hscore & Hnodup & _).
    split; assumption.
Qed.

Lemma quiz_score_at_most_once_per_question_witness :
  (QuizView.showResult (QuizView.mkQuiz (Some "Technical") 0 (Some 1) true 1) = true
   /\ QuizView.handleSelect (Obj [("correctAnswer", Num 1)]) 3
        (QuizView.mkQuiz (Some "Technical") 0 (Some 1) true 1)
      = (QuizView.mkQuiz (Some "Technical") 0 (Some 1) true 1, None))
  /\ (QuizView.showResult (QuizView.mkQuiz (Some "Technical") 0 None false 0) = false
      /\ get_prop (Obj [("correctAnswer", Num 1)]) "correctAnswer" = Returned (Num 1)
      /\ QuizView.handleSelect (Obj [("correctAnswer", Num 1)]) 1
           (QuizView.mkQuiz (Some "Technical") 0 None false 0)
         = (QuizView.mkQuiz (Some "Technical") 0 (Some 1) true 1, None)).
Proof.
  split.
  - split; [reflexivity |].
    apply (proj1 quiz_score_at_most_once_per_question). reflexivity.
  - split; [reflexivity |]. split; [reflexivity |].
    apply (proj1 (proj2 quiz_score_at_most_once_per_question)
             (Obj [("correctAnswer", Num 1)]) (Num 1) 1
             (QuizView.mkQuiz (Some "Technical") 0 None false 0));
      reflexivity.
Defined.

(* ================================================================== *)
(** * Properties of the orchestration pipeline *)

Section TraceFacts.

Variables earlier later : event -> bool.

Lemma never_app (p : event -> bool) (a b : list event) :
  never p (a ++ b) = never p a && never p b.
Proof. apply forallb_app. Qed.

Lemma never_In (p : event -> bool) (tr : list event) (e : event) :
  never p tr = true -> In e tr -> p e = false.
Proof.
  unfold never. rewrite forallb_forall. intros H Hin.
  apply negb_true_iff. apply H. exact Hin.
Qed.

Lemma never_existsb (p : event -> bool) (tr : list event) :
  never p tr = true -> existsb p tr = false.
Proof.
  induction tr as [| e tr IH]; simpl; [reflexivity |].
  intros H. apply andb_prop in H. destruct H as [He Htr].
  apply negb_true_iff in He. rewrite He, (IH Htr). reflexivity.
Qed.

(** An occurrence of [later] in [a ++ b] lies in [b] when [a] has none. *)
Lemma split_after_prefix (a b pre post : list event) (e : event) :
  never later a = true ->
  a ++ b = pre ++ e :: post ->
  later e = true ->
  exists pre', pre = a ++ pre' /\ b = pre' ++ e :: post.
Proof.
  revert pre. induction a as [| x a IH]; intros pre Ha Heq He.
  - exists pre. split; [reflexivity | exact Heq].
  - simpl in Ha. apply andb_prop in Ha. destruct Ha as [Hx Ha].
    destruct pre as [| y pre]; simpl in Heq; inversion Heq; subst.
    + rewrite He in Hx. discriminate.
    + destruct (IH pre Ha H1 He) as [pre' [-> Hb]].
      exists pre'. split; [reflexivity | exact Hb].
Qed.

Lemma precedes_never (tr : list event) :
  never later tr = true -> precedes earlier later tr.
Proof.
  intros H pre e post -> He.
  assert (later e = false) as Hf
      by (apply (never_In later (pre ++ e :: post)); [exact H |];
          apply in_or_app; right; left; reflexivity).
  rewrite He in Hf. discriminate.
Qed.

Lemma precedes_after (a b : list event) :
  never later a = true ->
  existsb earlier a = true ->
  precedes earlier later (a ++ b).
Proof.
  intros Ha Hearlier pre e post Heq He.
  destruct (split_after_prefix a b pre post e Ha Heq He) as [pre' [-> _]].
  rewrite existsb_app, Hearlier. reflexivity.
Qed.

End TraceFacts.

Section StateFacts.

Lemma apply_events_app (app : AppState) (a b : list event) :
  apply_events app (a ++ b) = apply_events (apply_events app a) b.
Proof. apply fold_left_app. Qed.

Lemma loading_kept (tr : list event) :
  forall app, never sets_loading tr = true ->
              loading (apply_events app tr) = loading app.
Proof.
  unfold apply_events.
  induction tr as [| e tr IH]; intros app H; simpl; [reflexivity |].
  simpl in H. apply andb_prop in H. destruct H as [He Htr].
  rewrite (IH _ Htr).
  destruct e; simpl in *; try reflexivity; discriminate.
Qed.

Lemma artifacts_kept (tr : list event) :
  forall app, never ready_update tr = true ->
              activeTab (apply_events app tr) = activeTab app
              /\ trainingPlan (apply_events app tr) = trainingPlan app
              /\ quiz (apply_events app tr) = quiz app
              /\ challenges (apply_events app tr) = challenges app.
Proof.
  unfold apply_events.
  induction tr as [| e tr IH]; intros app H; simpl; [repeat split |].
  simpl in H. apply andb_prop in H. destruct H as [He Htr].
  destruct (IH (apply_event app e) Htr) as (H1 & H2 & H3 & H4).
  rewrite H1, H2, H3, H4.
  destruct e; simpl in *; try (repeat split; reflexivity); discriminate.
Qed.

End StateFacts.

Section PipelineFacts.

Context {client : GenerationClient}.
Variable w : World.

Lemma never_replies_gen (p : event -> bool) (l : list call) :
  (forall op o, p (Settle op o) = false) ->
  never p (replies w l) = true.
Proof.
  intros Hs. unfold replies.
  induction l as [| c l IH]; [reflexivity |].
  cbn [map never forallb]. unfold settle_one at 1. rewrite Hs. exact IH.
Qed.

Lemma never_replies (p : event -> bool) (l : list call) :
  quiet p -> never p (replies w l) = true.
Proof. intros (_ & _ & Hs). apply never_replies_gen. exact Hs. Qed.

Lemma never_launch_one (p : event -> bool) (c : call) :
  quiet p -> never p (launch_one c) = true.
Proof.
  intros (Hi & Hr & Hs). unfold launch_one. cbn [never forallb].
  rewrite Hi. destruct (snd c); cbn [forallb]; [rewrite Hs | rewrite Hr];
    reflexivity.
Qed.

Lemma never_launch (p : event -> bool) (calls : list call) :
  quiet p -> never p (launch calls) = true.
Proof.
  intros Hp. unfold launch.
  induction calls as [| c calls IH]; [reflexivity |].
  change (flat_map launch_one (c :: calls))
    with (launch_one c ++ flat_map launch_one calls).
  rewrite never_app, (never_launch_one p c Hp), IH. reflexivity.
Qed.

Lemma never_await (p : event -> bool) (c : call) :
  quiet p -> never p (fst (await_op w c)) = true.
Proof.
  intros Hp. unfold await_op. cbn [fst].
  rewrite never_app, (never_launch_one p c Hp), (never_replies p _ Hp).
  reflexivity.
Qed.

Lemma quiet_sets_loading : quiet sets_loading.
Proof. repeat split. Qed.

Lemma quiet_ready_update : quiet ready_update.
Proof. repeat split. Qed.

(** *** The replies arrive for exactly the calls that wait for one *)

Lemma In_insert_by_latency (c d : call) (l : list call) :
  In d (insert_by_latency w c l) <-> d = c \/ In d l.
Proof.
  induction l as [| x l IH]; simpl.
  - intuition congruence.
  - destruct (Nat.leb (latency w (fst c)) (latency w (fst x))); simpl.
    + intuition congruence.
    + rewrite IH. intuition congruence.
Qed.

Lemma In_sort_by_latency (d : call) (l : list call) :
  In d (sort_by_latency w l) <-> In d l.
Proof.
  unfold sort_by_latency.
  induction l as [| x l IH]; simpl; [tauto |].
  rewrite In_insert_by_latency, IH. intuition congruence.
Qed.

Lemma In_pending (d : call) (calls : list call) :
  In d (pending w calls) <-> In d calls /\ issues_request (snd d) = true.
Proof. unfold pending. rewrite In_sort_by_latency, filter_In. tauto. Qed.

Lemma In_settle_order (d : call) (calls : list call) :
  In d (settle_order w calls) <-> In d calls.
Proof.
  unfold settle_order, settled_early.
  rewrite in_app_iff, In_pending, filter_In.
  destruct (issues_request (snd d)); simpl; intuition congruence.
Qed.

Lemma settled_in_launch (c : call) (calls : list call) :
  In c calls -> issues_request (snd c) = false ->
  In (settle_one w c) (launch calls).
Proof.
  intros Hin Hsync. unfold launch. apply in_flat_map. exists c.
  split; [exact Hin |].
  unfold launch_one, settle_one.
  destruct (snd c); [| discriminate]. right. left. reflexivity.
Qed.

(** *** The join *)

Lemma first_rejection_none (l : list call) :
  first_rejection w l = None ->
  forall c, In c l -> rejected w c = false.
Proof.
  unfold first_rejection. intros H c Hin.
  destruct (find (rejected w) l) as [d |] eqn:Hfind.
  - apply find_some in Hfind. destruct Hfind as [_ Hd].
    unfold rejected in Hd.
    destruct (finish (snd d) (reply_to w (fst d))); simpl in Hd; discriminate.
  - exact (find_none _ _ Hfind c Hin).
Qed.

Lemma awaited_all (l : list call) :
  (forall c, In c l -> rejected w c = false) ->
  awaited w l = l /\ late w l = [].
Proof.
  induction l as [| c l IH]; intros H; simpl; [split; reflexivity |].
  rewrite (H c (or_introl eq_refl)).
  destruct (IH (fun d Hd => H d (or_intror Hd))) as [-> ->].
  split; reflexivity.
Qed.

Lemma existsb_none (l : list call) :
  (forall c, In c l -> rejected w c = false) ->
  existsb (rejected w) l = false.
Proof.
  induction l as [| c l IH]; intros H; simpl; [reflexivity |].
  rewrite (H c (or_introl eq_refl)). apply IH.
  intros d Hd. apply H. right. exact Hd.
Qed.

(** When nothing rejects, the join waits for every pending reply and none
    is late. *)
Lemma join_fulfilled (calls : list call) :
  first_rejection w (settle_order w calls) = None ->
  (forall c, In c calls -> rejected w c = false)
  /\ awaited_replies w calls = pending w calls
  /\ late_replies w calls = [].
Proof.
  intros Hnone.
  assert (forall c, In c calls -> rejected w c = false) as Hall.
  { intros c Hc. apply (first_rejection_none _ Hnone).
    apply In_settle_order. exact Hc. }
  split; [exact Hall |].
  unfold awaited_replies, late_replies.
  rewrite existsb_none.
  - apply awaited_all. intros c Hc. apply Hall.
    apply In_pending in Hc. tauto.
  - intros c Hc. apply Hall. unfold settled_early in Hc.
    apply filter_In in Hc. tauto.
Qed.

Lemma settled_with_value (c : call) :
  rejected w c = false ->
  completed (fst c) (settle_one w c) = true.
Proof.
  unfold rejected, settle_one. intros H.
  destruct (finish (snd c) (reply_to w (fst c))); simpl in *;
    [| discriminate].
  destruct (fst c); reflexivity.
Qed.

(** A call that is not rejected has completed with a value once the calls
    are made and the pending replies are in. *)
Lemma completed_by_join (calls : list call) (c : call) :
  In c calls -> rejected w c = false ->
  existsb (completed (fst c)) (launch calls ++ replies w (pending w calls))
  = true.
Proof.
  intros Hin Hc. apply existsb_exists. exists (settle_one w c).
  split; [| apply settled_with_value; exact Hc].
  apply in_or_app.
  destruct (issues_request (snd c)) eqn:Hreq.
  - right. unfold replies. apply in_map. apply In_pending. tauto.
  - left. apply settled_in_launch; assumption.
Qed.

Lemma on_joined_events (analysis : value) (results : list (outcome value))
      (evs : list event) :
  on_joined analysis results = Returned evs ->
  never sets_loading evs = true /\ never (invoked Analyze) evs = true.
Proof.
  unfold on_joined.
  destruct results as [| [p | ] [| [q | ] [| [c | ] [| ]]]]; try discriminate.
  destruct (get_prop analysis "skills"); simpl; [| discriminate].
  intros H. inversion H; subst. split; reflexivity.
Qed.

(** *** The shape of a run *)

Lemma try_and_catch_thrown text imageBase64 company (e : error) :
  snd (await_op w (Analyze, client_analyze text imageBase64 company)) = Thrown e ->
  try_and_catch w text imageBase64 company
  = (fst (await_op w (Analyze, client_analyze text imageBase64 company))
     ++ catch_block, []).
Proof. intros H. unfold try_and_catch. rewrite H. reflexivity. Qed.

Lemma try_and_catch_returned text imageBase64 company (analysis : value) :
  snd (await_op w (Analyze, client_analyze text imageBase64 company))
  = Returned analysis ->
  try_and_catch w text imageBase64 company
  = (fst (await_op w (Analyze, client_analyze text imageBase64 company))
     ++ [SetJobData analysis]
     ++ launch (dependent_calls analysis)
     ++ replies w (awaited_replies w (dependent_calls analysis))
     ++ after_join w analysis,
     replies w (late_replies w (dependent_calls analysis))).
Proof. intros H. unfold try_and_catch. rewrite H. reflexivity. Qed.

Lemma after_join_cases (analysis : value) :
  after_join w analysis = catch_block
  \/ (first_rejection w (settle_order w (dependent_calls analysis)) = None
      /\ exists evs,
           on_joined analysis
             (map (fun c => finish (snd c) (reply_to w (fst c)))
                  (dependent_calls analysis)) = Returned evs
           /\ after_join w analysis = evs).
Proof.
  unfold after_join.
  destruct (first_rejection w (settle_order w (dependent_calls analysis)));
    [left; reflexivity |].
  destruct (on_joined analysis _) as [evs |] eqn:Hjoin; [| left; reflexivity].
  right. split; [reflexivity |]. exists evs. split; reflexivity.
Qed.

Lemma after_join_quiet (analysis : value) :
  never sets_loading (after_join w analysis) = true
  /\ never (invoked Analyze) (after_join w analysis) = true.
Proof.
  destruct (after_join_cases analysis) as [-> | [_ [evs [Hjoin ->]]]].
  - split; reflexivity.
  - exact (on_joined_events _ _ _ Hjoin).
Qed.

Lemma try_and_catch_keeps_loading text imageBase64 company :
  never sets_loading (fst (try_and_catch w text imageBase64 company)) = true
  /\ never sets_loading (snd (try_and_catch w text imageBase64 company)) = true.
Proof.
  pose proof (never_await sets_loading
                (Analyze, client_analyze text imageBase64 company)
                quiet_sets_loading) as Hfirst.
  destruct (snd (await_op w (Analyze, client_analyze text imageBase64 company)))
    as [analysis | e] eqn:Hout.
  - rewrite (try_and_catch_returned _ _ _ _ Hout). cbn [fst snd].
    split; [| apply never_replies; exact quiet_sets_loading].
    rewrite !never_app, Hfirst.
    rewrite (never_launch sets_loading _ quiet_sets_loading).
    rewrite (never_replies sets_loading _ quiet_sets_loading).
    rewrite (proj1 (after_join_quiet analysis)). reflexivity.
  - rewrite (try_and_catch_thrown _ _ _ _ Hout). cbn [fst snd].
    split; [| reflexivity].
    rewrite never_app, Hfirst. reflexivity.
Qed.

Lemma dependents_called (analysis : value) (op : GenOp) :
  In op dependents ->
  GenOp_eqb op Analyze = false
  /\ exists s, In (op, s) (dependent_calls analysis).
Proof.
  unfold dependents, dependent_calls.
  intros [<- | [<- | [<- | []]]]; (split; [reflexivity |]); eexists; simpl; eauto.
Qed.

Lemma never_issued_by_analysis (op : GenOp) (s : started) :
  GenOp_eqb op Analyze = false ->
  never (issued op) (fst (await_op w (Analyze, s))) = true.
Proof.
  intros Hop. unfold await_op, launch_one, replies, settle_one.
  cbn [fst snd]. destruct s; simpl; rewrite Hop; reflexivity.
Qed.

Lemma analysis_completed (s : started) (analysis : value) :
  snd (await_op w (Analyze, s)) = Returned analysis ->
  existsb (completed Analyze) (fst (await_op w (Analyze, s))) = true.
Proof.
  unfold await_op, launch_one, replies, settle_one. cbn [fst snd].
  destruct s; simpl; intros ->; reflexivity.
Qed.

(** The analysis has completed with a value before a dependent operation
    is called or sends its request. *)
Lemma issued_after_analysis text imageBase64 company (op : GenOp) :
  In op dependents ->
  precedes (completed Analyze) (issued op)
           (handleAnalyze w text imageBase64 company).
Proof.
  intros Hop.
  destruct (dependents_called Null op Hop) as [Hneq _].
  pose proof (never_issued_by_analysis op
                (client_analyze text imageBase64 company) Hneq) as Hquiet.
  unfold handleAnalyze.
  destruct (snd (await_op w (Analyze, client_analyze text imageBase64 company)))
    as [analysis | e] eqn:Hout.
  - rewrite (try_and_catch_returned _ _ _ _ Hout). cbn [fst snd].
    rewrite <- !app_assoc.
    rewrite (app_assoc [SetLoading true]).
    apply precedes_after.
    + rewrite never_app, Hquiet. reflexivity.
    + rewrite existsb_app, (analysis_completed _ _ Hout). apply orb_true_r.
  - rewrite (try_and_catch_thrown _ _ _ _ Hout). cbn [fst snd].
    apply precedes_never.
    rewrite !never_app, Hquiet. reflexivity.
Qed.

(** The three dependent operations have completed with a value before any
    update of the transition to Ready. *)
Lemma ready_after_dependents text imageBase64 company (op : GenOp) :
  In op dependents ->
  precedes (completed op) ready_update
           (handleAnalyze w text imageBase64 company).
Proof.
  intros Hop.
  pose proof (never_await ready_update
                (Analyze, client_analyze text imageBase64 company)
                quiet_ready_update) as Hfirst.
  unfold handleAnalyze.
  destruct (snd (await_op w (Analyze, client_analyze text imageBase64 company)))
    as [analysis | e] eqn:Hout.
  - rewrite (try_and_catch_returned _ _ _ _ Hout). cbn [fst snd].
    pose proof (never_launch ready_update (dependent_calls analysis)
                  quiet_ready_update) as Hlaunch.
    destruct (after_join_cases analysis) as [-> | [Hnone [evs [_ ->]]]].
    + apply precedes_never.
      rewrite !never_app, Hfirst, Hlaunch.
      rewrite !(never_replies ready_update _ quiet_ready_update).
      reflexivity.
    + destruct (join_fulfilled _ Hnone) as (Hall & -> & ->).
      destruct (dependents_called analysis op Hop) as [_ [s Hs]].
      pose proof (completed_by_join _ _ Hs (Hall _ Hs)) as Hdone.
      cbn [fst] in Hdone.
      rewrite <- !app_assoc.
      rewrite (app_assoc (launch _)).
      do 3 rewrite app_assoc.
      apply precedes_after.
      * rewrite !never_app, Hfirst, Hlaunch.
        rewrite (never_replies ready_update _ quiet_ready_update).
        reflexivity.
      * rewrite (existsb_app _ _ (launch _ ++ _)), Hdone.
        apply orb_true_r.
  - rewrite (try_and_catch_thrown _ _ _ _ Hout). cbn [fst snd].
    apply precedes_never.
    rewrite !never_app, Hfirst. reflexivity.
Qed.

(** *** A run whose exception reaches the [catch] *)

Lemma reaches_catch_thrown text imageBase64 company :
  reaches_catch w text imageBase64 company = true ->
  (exists e,
      snd (await_op w (Analyze, client_analyze text imageBase64 company)) = Thrown e)
  \/ (exists analysis,
         snd (await_op w (Analyze, client_analyze text imageBase64 company))
         = Returned analysis
         /\ after_join w analysis = catch_block).
Proof.
  unfold reaches_catch.
  destruct (snd (await_op w (Analyze, client_analyze text imageBase64 company)))
    as [analysis | e]; [| intros _; left; exists e; reflexivity].
  intros H. right. exists analysis. split; [reflexivity |].
  unfold after_join.
  destruct (first_rejection w (settle_order w (dependent_calls analysis)));
    [reflexivity |].
  destruct (on_joined analysis _); [discriminate | reflexivity].
Qed.

Lemma caught_run_shape text imageBase64 company :
  reaches_catch w text imageBase64 company = true ->
  existsb is_alert (handleAnalyze w text imageBase64 company) = true
  /\ never ready_update (handleAnalyze w text imageBase64 company) = true.
Proof.
  intros Hcatch. unfold handleAnalyze.
  pose proof (never_await ready_update
                (Analyze, client_analyze text imageBase64 company)
                quiet_ready_update) as Hfirst.
  destruct (reaches_catch_thrown _ _ _ Hcatch)
    as [[e Hout] | [analysis [Hout Hafter]]].
  - rewrite (try_and_catch_thrown _ _ _ _ Hout). cbn [fst snd]. split.
    + rewrite !existsb_app. simpl. rewrite !orb_true_r. reflexivity.
    + rewrite !never_app, Hfirst. reflexivity.
  - rewrite (try_and_catch_returned _ _ _ _ Hout). cbn [fst snd].
    rewrite Hafter. split.
    + rewrite !existsb_app. simpl. rewrite !orb_true_r. reflexivity.
    + rewrite !never_app, Hfirst.
      rewrite (never_launch ready_update _ quiet_ready_update).
      rewrite !(never_replies ready_update _ quiet_ready_update).
      reflexivity.
Qed.

(** *** The analysis is called once per run *)

Lemma filter_never (p : event -> bool) (tr : list event) :
  never p tr = true -> filter p tr = [].
Proof.
  induction tr as [| e tr IH]; simpl; [reflexivity |].
  intros H. apply andb_prop in H. destruct H as [He Htr].
  apply negb_true_iff in He. rewrite He. apply IH. exact Htr.
Qed.

Lemma analysis_invoked_once_in_await (s : started) :
  filter (invoked Analyze) (fst (await_op w (Analyze, s))) = [Invoke Analyze].
Proof.
  unfold await_op, launch_one, replies, settle_one. cbn [fst snd].
  destruct s; reflexivity.
Qed.

Lemma dependents_never_invoke_analysis (analysis : value) :
  never (invoked Analyze) (launch (dependent_calls analysis)) = true.
Proof.
  unfold launch, dependent_calls, launch_one. cbn [flat_map fst snd].
  destruct (client_studyPlan analysis);
    destruct (client_quiz analysis);
    destruct (client_challenges analysis); reflexivity.
Qed.

Lemma analysis_invoked_once text imageBase64 company :
  filter (invoked Analyze) (handleAnalyze w text imageBase64 company)
  = [Invoke Analyze].
Proof.
  unfold handleAnalyze.
  assert (forall l, never (invoked Analyze) (replies w l) = true)
    as Hreplies by (intros l; apply never_replies_gen; reflexivity).
  destruct (snd (await_op w (Analyze, client_analyze text imageBase64 company)))
    as [analysis | e] eqn:Hout.
  - rewrite (try_and_catch_returned _ _ _ _ Hout). cbn [fst snd].
    rewrite !filter_app, analysis_invoked_once_in_await.
    rewrite (filter_never _ _ (dependents_never_invoke_analysis analysis)).
    rewrite !(filter_never _ _ (Hreplies _)).
    rewrite (filter_never _ _ (proj2 (after_join_quiet analysis))).
    reflexivity.
  - rewrite (try_and_catch_thrown _ _ _ _ Hout). cbn [fst snd].
    rewrite !filter_app, analysis_invoked_once_in_await. reflexivity.
Qed.

(** *** The loading flag *)

Lemma handleAnalyze_clears_loading text imageBase64 company (app : AppState) :
  loading (apply_events app (handleAnalyze w text imageBase64 company)) = false.
Proof.
  unfold handleAnalyze.
  destruct (try_and_catch_keeps_loading text imageBase64 company) as [_ Hlate].
  rewrite !apply_events_app, (loading_kept _ _ Hlate). reflexivity.
Qed.

Lemma never_sets_never_clears (tr : list event) :
  never sets_loading tr = true -> existsb clears_loading tr = false.
Proof.
  induction tr as [| e tr IH]; simpl; [reflexivity |].
  intros H. apply andb_prop in H. destruct H as [He Htr].
  rewrite (IH Htr).
  destruct e as [[|] | | | | | | | | |]; simpl in *; try reflexivity; discriminate.
Qed.

Lemma prefix_before_clear (x y : list event) :
  never sets_loading x = true ->
  never sets_loading y = true ->
  forall pre post,
    x ++ SetLoading false :: y = pre ++ post ->
    existsb clears_loading post = true ->
    never sets_loading pre = true.
Proof.
  intros Hx Hy. induction x as [| e x IH]; intros pre post Heq Hpost.
  - destruct pre as [| p pre]; [reflexivity |].
    simpl in Heq. inversion Heq; subst.
    rewrite never_app in Hy. apply andb_prop in Hy. destruct Hy as [_ Hy].
    rewrite (never_sets_never_clears _ Hy) in Hpost. discriminate.
  - simpl in Hx. apply andb_prop in Hx. destruct Hx as [He Hx].
    destruct pre as [| p pre]; [reflexivity |].
    simpl in Heq. inversion Heq; subst.
    simpl. rewrite He. exact (IH Hx pre post H1 Hpost).
Qed.

Lemma loading_during_run text imageBase64 company (app : AppState)
      (pre post : list event) :
  handleAnalyze w text imageBase64 company = pre ++ post ->
  pre <> [] ->
  existsb clears_loading post = true ->
  loading (apply_events app pre) = true.
Proof.
  unfold handleAnalyze. intros Heq Hpre Hpost.
  destruct (try_and_catch_keeps_loading text imageBase64 company) as [Hx Hy].
  destruct pre as [| p pre]; [contradiction |].
  simpl in Heq. inversion Heq; subst.
  pose proof (prefix_before_clear _ _ Hx Hy pre post H1 Hpost) as Hquiet.
  change (SetLoading true :: pre) with ([SetLoading true] ++ pre).
  rewrite apply_events_app, (loading_kept _ _ Hquiet). reflexivity.
Qed.

End PipelineFacts.

Lemma submit_ignored_while_loading {client : GenerationClient}
      (w : World) (app : AppState) (f : JobAnalyzer.Form) :
  loading app = true -> submitAnalysis w app f = (f, []).
Proof.
  intros H. unfold submitAnalysis, JobAnalyzer.clickGenerate. rewrite H.
  destruct (Tab_eqb (activeTab app) ANALYSIS); reflexivity.
Qed.

(** The scenario of a service that fails every request: each operation
    falls back, the run reaches the study-plan view with loading cleared,
    and the challenges are the Two Sum fallback. *)
Example all_requests_failing_reaches_ready :
  let final := apply_events initialApp
                 (handleAnalyze Sample.failingWorld
                    "Backend Engineer, Java, AWS" None (Some "Amazon")) in
  activeTab final = PLAN
  /\ loading final = false
  /\ quiz final = Arr []
  /\ Returned (challenges final) = Gemini.twoSumFallback (jobData final)
  /\ entries (challenges final) = Some 1.
Proof. vm_compute. repeat split. Qed.

(** C1. In every run of [handleAnalyze], the analysis has completed with a
    value (the reply or the fallback) before any of the three dependent
    operations is called or sends its request, and each of the three
    dependent operations has completed with a value before any update of the
    transition to Ready (the training plan, the quiz, the challenges, the
    switch of the active view) is made. *)
Theorem analysis_then_dependents_then_ready :
  forall (client : GenerationClient) (w : World)
         (text : string) (imageBase64 company : option string),
    Forall (fun op =>
              precedes (completed Analyze) (issued op)
                       (handleAnalyze w text imageBase64 company))
           dependents
    /\ Forall (fun op =>
                 precedes (completed op) ready_update
                          (handleAnalyze w text imageBase64 company))
              dependents.
Proof.
  intros client w text imageBase64 company. split; apply Forall_forall; intros op Hop.
  - apply issued_after_analysis. exact Hop.
  - apply ready_after_dependents. exact Hop.
Qed.

(** C6. When an exception reaches the [catch] of [handleAnalyze] (thrown
    by the awaited analysis, by the join of the three dependent calls or by
    the statements after it), the run is aborted: the alert is shown, no
    update of the transition to Ready is made, so the active view and the
    three artifact slots are the ones from before the run, the loading flag
    ends cleared, the submit button accepts a click again, and the analysis
    was called once only. *)
Theorem escaped_exception_aborts_run :
  forall (client : GenerationClient) (w : World)
         (text : string) (imageBase64 company : option string),
    reaches_catch w text imageBase64 company = true ->
    existsb is_alert (handleAnalyze w text imageBase64 company) = true
    /\ never ready_update (handleAnalyze w text imageBase64 company) = true
    /\ filter (invoked Analyze) (handleAnalyze w text imageBase64 company)
       = [Invoke Analyze]
    /\ forall app : AppState,
         loading (apply_events app (handleAnalyze w text imageBase64 company)) = false
         /\ activeTab (apply_events app (handleAnalyze w text imageBase64 company))
            = activeTab app
         /\ trainingPlan (apply_events app (handleAnalyze w text imageBase64 company))
            = trainingPlan app
         /\ quiz (apply_events app (handleAnalyze w text imageBase64 company))
            = quiz app
         /\ challenges (apply_events app (handleAnalyze w text imageBase64 company))
            = challenges app
         /\ forall f : JobAnalyzer.Form,
              JobAnalyzer.clickGenerate
                (loading (apply_events app (handleAnalyze w text imageBase64 company))) f
              = JobAnalyzer.handleSubmit f.
Proof.
  intros client w text imageBase64 company Hcatch.
  destruct (caught_run_shape w text imageBase64 company Hcatch) as [Halert Hready].
  split; [exact Halert |]. split; [exact Hready |].
  split; [apply analysis_invoked_once |].
  intros app.
  pose proof (handleAnalyze_clears_loading w text imageBase64 company app) as Hload.
  destruct (artifacts_kept _ app Hready) as (Htab & Hplan & Hquiz & Hcode).
  repeat (split; [assumption |]).
  intros f. rewrite Hload. reflexivity.
Qed.

Lemma escaped_exception_aborts_run_witness :
  reaches_catch Sample.nullAnalysisWorld "Backend Engineer, Java, AWS" None (Some "Amazon")
  = true
  /\ existsb is_alert
       (handleAnalyze Sample.nullAnalysisWorld "Backend Engineer, Java, AWS" None (Some "Amazon"))
     = true
  /\ never ready_update
       (handleAnalyze Sample.nullAnalysisWorld "Backend Engineer, Java, AWS" None (Some "Amazon"))
     = true.
Proof.
  split; [reflexivity |].
  pose proof (escaped_exception_aborts_run gemini Sample.nullAnalysisWorld
                "Backend Engineer, Java, AWS" None (Some "Amazon") eq_refl) as H.
  split; [exact (proj1 H) | exact (proj1 (proj2 H))].
Defined.

(** C8. One run at a time: from its first event until [setLoading(false)]
    the loading flag is set, and while it is set the submit-analysis action
    is not accepted: the form is left as it is and nothing is called, so no
    second analysis can start before the current run has settled. *)
Theorem no_submit_while_run_in_flight :
  forall (client : GenerationClient) (w : World)
         (text : string) (imageBase64 company : option string)
         (app : AppState) (pre post : list event),
    handleAnalyze w text imageBase64 company = pre ++ post ->
    pre <> [] ->
    existsb clears_loading post = true ->
    loading (apply_events app pre) = true
    /\ forall (w' : World) (f : JobAnalyzer.Form),
         submitAnalysis w' (apply_events app pre) f = (f, [])
         /\ JobAnalyzer.clickGenerate (loading (apply_events app pre)) f = (f, None).
Proof.
  intros client w text imageBase64 company app pre post Heq Hpre Hpost.
  pose proof (loading_during_run w text imageBase64 company app pre post
                Heq Hpre Hpost) as Hload.
  split; [exact Hload |].
  intros w' f. split.
  - apply submit_ignored_while_loading. exact Hload.
  - rewrite Hload. reflexivity.
Qed.

Lemma no_submit_while_run_in_flight_witness :
  loading (apply_events initialApp
             [SetLoading true; Invoke Analyze; Request Analyze]) = true
  /\ forall (w' : World) (f : JobAnalyzer.Form),
       submitAnalysis w'
         (apply_events initialApp [SetLoading true; Invoke Analyze; Request Analyze]) f
       = (f, [])
       /\ JobAnalyzer.clickGenerate
            (loading (apply_events initialApp
                        [SetLoading true; Invoke Analyze; Request Analyze])) f
          = (f, None).
Proof.
  apply (no_submit_while_run_in_flight gemini Sample.failingWorld
           "Backend Engineer, Java, AWS" None (Some "Amazon") initialApp
           [SetLoading true; Invoke Analyze; Request Analyze]
           (skipn 3 (handleAnalyze Sample.failingWorld
                       "Backend Engineer, Java, AWS" None (Some "Amazon")))).
  - reflexivity.
  - discriminate.
  - reflexivity.
Defined.

(* ================================================================== *)
(** * Further properties of the generation client *)

Section MoreClientFacts.


Lemma get_prop_nullish (v : value) (k : string) :
  nullish v = true -> get_prop v k = Thrown TypeError.
Proof. destruct v; try discriminate; reflexivity. Qed.

Lemma get_prop_defined (v : value) (k : string) :
  nullish v = false -> exists x, get_prop v k = Returned x.
Proof. destruct v; try discriminate; intros _; eexists; reflexivity. Qed.


Lemma generateStudyPlan_finish (job : value) (r : reply) :
  finish (Gemini.generateStudyPlan job) r = Returned (Arr [])
  \/ exists v, r = Json v /\ finish (Gemini.generateStudyPlan job) r = Returned v.
Proof.
  unfold Gemini.generateStudyPlan.
  destruct (Gemini.studyPlanPrompt job); [| left; reflexivity].
  destruct r; simpl; [left; reflexivity .. |].
  right. exists v. split; reflexivity.
Qed.

Lemma challenges_rejects (job : value) (r : reply) :
  returns (finish (Gemini.generateCodeChallenges job) r) = negb (nullish job).
Proof.
  unfold Gemini.generateCodeChallenges, Gemini.challengesPrompt,
    Gemini.twoSumFallback.
  destruct job; simpl; try reflexivity; destruct r; reflexivity.
Qed.

End MoreClientFacts.





(** X3. [runCodeWithAI] never throws: a parsed reply is returned as it is,
    and every failure (rejected request, no text, malformed JSON) gives the
    fixed result of status Error with no test case. *)
Theorem runCodeWithAI_total :
  forall (code language problemDescription : value) (r : reply),
    returns (finish (CodeService.runCodeWithAI code language problemDescription) r)
    = true
    /\ (forall v, r = Json v ->
        finish (CodeService.runCodeWithAI code language problemDescription) r
        = Returned v)
    /\ (is_failure r = true ->
        exists res,
          finish (CodeService.runCodeWithAI code language problemDescription) r
          = Returned res
          /\ get_prop res "status" = Returned (Str "Error")
          /\ get_prop res "testCases" = Returned (Arr [])
          /\ get_prop res "summary" = Returned (Str "System error occurred.")).
Proof.
  intros code language problemDescription r.
  split; [destruct r; reflexivity |]. split.
  - intros v ->. reflexivity.
  - intros Hfail. exists CodeService.executionFallback.
    destruct r; try discriminate; repeat split.
Qed.

Lemma runCodeWithAI_total_witness :
  is_failure Malformed = true
  /\ exists res,
       finish (CodeService.runCodeWithAI (Str "pass") (Str "python") (Str "Two Sum"))
              Malformed = Returned res
       /\ get_prop res "status" = Returned (Str "Error")
       /\ get_prop res "testCases" = Returned (Arr [])
       /\ get_prop res "summary" = Returned (Str "System error occurred.").
Proof.
  split; [reflexivity |].
  apply (proj2 (proj2 (runCodeWithAI_total (Str "pass") (Str "python")
                         (Str "Two Sum") Malformed))).
  reflexivity.
Defined.

Lemma getCodeHint_returns (code language problemDescription : value)
      (r : CodeService.text_reply) :
  exists h : string,
    CodeService.getCodeHint code language problemDescription r = Returned h
    /\ truthy_string h = true.
Proof.
  unfold CodeService.getCodeHint.
  destruct r as [| [t |]]; simpl.
  - eexists. split; reflexivity.
  - destruct (truthy_string t) eqn:Ht.
    + exists t. split; [reflexivity | exact Ht].
    + eexists. split; reflexivity.
  - eexists. split; reflexivity.
Qed.

(** X4. [getCodeHint] always returns a hint that is not empty: the text of
    the reply when it has one, a fixed sentence when the text is missing or
    empty, another when the request fails. *)
Theorem getCodeHint_never_empty :
  forall (code language problemDescription : value) (r : CodeService.text_reply),
    exists h : string,
      CodeService.getCodeHint code language problemDescription r = Returned h
      /\ truthy_string h = true
      /\ (forall t, r = CodeService.Text (Some t) -> truthy_string t = true -> h = t).
Proof.
  intros code language problemDescription r.
  unfold CodeService.getCodeHint.
  destruct r as [| [t |]]; simpl.
  - eexists. split; [reflexivity |]. split; [reflexivity |]. discriminate.
  - destruct (truthy_string t) eqn:Ht.
    + exists t. split; [reflexivity |]. split; [exact Ht |].
      intros t' H _. inversion H. reflexivity.
    + eexists. split; [reflexivity |]. split; [reflexivity |].
      intros t' H Ht'. inversion H; subst. congruence.
  - eexists. split; [reflexivity |]. split; [reflexivity |]. discriminate.
Qed.

Lemma getCodeHint_never_empty_witness :
  exists h : string,
    CodeService.getCodeHint (Str "pass") (Str "python") (Str "Two Sum")
      (CodeService.Text (Some "Use a hash map.")) = Returned h
    /\ truthy_string h = true
    /\ (forall t, CodeService.Text (Some "Use a hash map.") = CodeService.Text (Some t) ->
        truthy_string t = true -> h = t).
Proof.
  apply (getCodeHint_never_empty (Str "pass") (Str "python") (Str "Two Sum")
           (CodeService.Text (Some "Use a hash map."))).
Defined.

(* ================================================================== *)
(** * Properties of the coding lab *)

Section EditorFacts.

Import CodeEditor.

Lemma contains_app (c : ascii) (a b : string) :
  contains c (a ++ b)%string = contains c a || contains c b.
Proof.
  induction a as [| d a IH]; simpl; [reflexivity |].
  rewrite IH. apply orb_assoc.
Qed.

Lemma escapeChar_plain (d : ascii) :
  special d = false -> escapeChar d = String d EmptyString.
Proof.
  unfold special, escapeChar. intros H.
  repeat (apply orb_false_elim in H; destruct H as [H ?]).
  repeat match goal with Hx : Ascii.eqb _ _ = false |- _ => rewrite Hx; clear Hx end.
  reflexivity.
Qed.

Lemma escapeChar_clean (c d : ascii) :
  special c = true -> c <> "&"%char -> contains c (escapeChar d) = false.
Proof.
  intros Hc Hamp. destruct (special d) eqn:Hd.
  - assert (contains c (escapeChar d) = false \/ c = "&"%char) as [H | H];
      [| exact H | contradiction].
    unfold special in Hc, Hd. unfold escapeChar.
    destruct (Ascii.eqb_spec c "&"%char) as [-> | _]; [right; reflexivity |].
    left.
    destruct (Ascii.eqb_spec c "<"%char) as [-> | _];
      [destruct (Ascii.eqb d "&"); [reflexivity |];
       destruct (Ascii.eqb d "<"); [reflexivity |];
       destruct (Ascii.eqb d ">"); [reflexivity |];
       destruct (Ascii.eqb d quote); [reflexivity |];
       destruct (Ascii.eqb d "'"); [reflexivity | discriminate] |].
    destruct (Ascii.eqb_spec c ">"%char) as [-> | _];
      [destruct (Ascii.eqb d "&"); [reflexivity |];
       destruct (Ascii.eqb d "<"); [reflexivity |];
       destruct (Ascii.eqb d ">"); [reflexivity |];
       destruct (Ascii.eqb d quote); [reflexivity |];
       destruct (Ascii.eqb d "'"); [reflexivity | discriminate] |].
    destruct (Ascii.eqb_spec c quote) as [-> | _];
      [destruct (Ascii.eqb d "&"); [reflexivity |];
       destruct (Ascii.eqb d "<"); [reflexivity |];
       destruct (Ascii.eqb d ">"); [reflexivity |];
       destruct (Ascii.eqb d quote); [reflexivity |];
       destruct (Ascii.eqb d "'"); [reflexivity | discriminate] |].
    destruct (Ascii.eqb_spec c "'"%char) as [-> | _];
      [destruct (Ascii.eqb d "&"); [reflexivity |];
       destruct (Ascii.eqb d "<"); [reflexivity |];
       destruct (Ascii.eqb d ">"); [reflexivity |];
       destruct (Ascii.eqb d quote); [reflexivity |];
       destruct (Ascii.eqb d "'"); [reflexivity | discriminate] |].
    discriminate.
  - rewrite (escapeChar_plain d Hd). simpl. rewrite orb_false_r.
    destruct (Ascii.eqb_spec d c) as [-> | _]; [congruence | reflexivity].
Qed.

Lemma escapeHtml_clean (c : ascii) (code : string) :
  special c = true -> c <> "&"%char -> contains c (escapeHtml code) = false.
Proof.
  intros Hc Hamp. induction code as [| d code IH]; simpl; [reflexivity |].
  rewrite contains_app, IH, (escapeChar_clean c d Hc Hamp). reflexivity.
Qed.

Lemma split_char_length (sep : ascii) (s : string) :
  List.length (split_char sep s) = 1 + count_char sep s.
Proof.
  induction s as [| c s IH]; simpl; [reflexivity |].
  destruct (Ascii.eqb c sep); simpl.
  - rewrite IH. reflexivity.
  - destruct (split_char sep s) as [| piece pieces]; simpl in *; lia.
Qed.


End EditorFacts.

(** X5. The fallback of [getHighlightedCode] leaves no angle bracket and no
    quote in the text it hands to [dangerouslySetInnerHTML], and leaves a
    text without any of the five special characters as it is. *)
Theorem escapeHtml_removes_markup :
  forall code : string,
    contains "<"%char (CodeEditor.escapeHtml code) = false
    /\ contains ">"%char (CodeEditor.escapeHtml code) = false
    /\ contains CodeEditor.quote (CodeEditor.escapeHtml code) = false
    /\ contains "'"%char (CodeEditor.escapeHtml code) = false
    /\ (contains "&"%char code = false -> contains "<"%char code = false ->
        contains ">"%char code = false ->
        contains CodeEditor.quote code = false ->
        contains "'"%char code = false ->
        CodeEditor.escapeHtml code = code).
Proof.
  intros code.
  repeat (split; [apply escapeHtml_clean; [reflexivity | discriminate] |]).
  induction code as [| d code IH]; simpl; [reflexivity |].
  intros H1 H2 H3 H4 H5.
  apply orb_false_elim in H1, H2, H3, H4, H5.
  destruct H1 as [A1 B1], H2 as [A2 B2], H3 as [A3 B3], H4 as [A4 B4],
    H5 as [A5 B5].
  rewrite (IH B1 B2 B3 B4 B5).
  unfold CodeEditor.escapeChar. rewrite A1, A2, A3, A4, A5. reflexivity.
Qed.

Lemma escapeHtml_removes_markup_witness :
  CodeEditor.escapeHtml "return nums[i] + nums[j];" = "return nums[i] + nums[j];".
Proof.
  apply (proj2 (proj2 (proj2 (proj2
           (escapeHtml_removes_markup "return nums[i] + nums[j];")))));
    reflexivity.
Defined.

(** X6. The gutter of the editor has one number per line: [lineCount] is
    one more than the number of line feeds of the code, so it is never
    zero. *)
Theorem lineCount_counts_newlines :
  forall code : string,
    CodeEditor.lineCount code
    = 1 + CodeEditor.count_char CodeEditor.newline code.
Proof. intros code. apply split_char_length. Qed.

(** X7. [handleRun] always comes back: whatever the challenge and the
    reply, it ends with [isRunning] cleared and the output panel selected,
    touching nothing but the panel, the flag and the result.  The result is
    the connection failure of its own [catch] when there is no current
    challenge to read the description of, and otherwise the parsed reply of
    the service or the fallback of [runCodeWithAI]. *)
Theorem handleRun_settles :
  forall (current : value) (r : reply) (st : CodeEditor.Editor),
    CodeEditor.isRunning (CodeEditor.handleRun current r st) = false
    /\ CodeEditor.activeTab (CodeEditor.handleRun current r st) = CodeEditor.OutputTab
    /\ CodeEditor.result (CodeEditor.handleRun current r st)
       = (if nullish current then CodeEditor.connectFailure
          else match r with
               | Json v => v
               | _ => CodeService.executionFallback
               end)
    /\ CodeEditor.code (CodeEditor.handleRun current r st) = CodeEditor.code st
    /\ CodeEditor.language (CodeEditor.handleRun current r st) = CodeEditor.language st
    /\ CodeEditor.activeChallengeIdx (CodeEditor.handleRun current r st)
       = CodeEditor.activeChallengeIdx st
    /\ CodeEditor.hint (CodeEditor.handleRun current r st) = CodeEditor.hint st
    /\ CodeEditor.loadingHint (CodeEditor.handleRun current r st)
       = CodeEditor.loadingHint st.
Proof.
  intros current r st.
  unfold CodeEditor.handleRun, CodeEditor.handleRun_finish,
    CodeEditor.handleRun_result, CodeEditor.handleRun_start. simpl.
  repeat split.
  destruct (nullish current) eqn:Hn.
  - rewrite (get_prop_nullish _ _ Hn). reflexivity.
  - destruct (get_prop_defined current "description" Hn) as [d ->].
    destruct r; reflexivity.
Qed.

(** X8. [handleGetHint] shows a hint exactly when there is a current
    challenge: then it ends with [loadingHint] cleared and a hint that is
    not empty on the hint panel; with no current challenge the read of its
    description throws after [setLoadingHint(true)], and the panel stays on
    its loading state.  The code, the result and the running flag are left
    alone in both cases. *)
Theorem handleGetHint_shows_hint_iff_challenge :
  forall (current : value) (r : CodeService.text_reply) (st : CodeEditor.Editor),
    CodeEditor.hint_shown (fst (CodeEditor.handleGetHint current r st))
    = negb (nullish current)
    /\ CodeEditor.loadingHint (fst (CodeEditor.handleGetHint current r st))
       = nullish current
    /\ snd (CodeEditor.handleGetHint current r st)
       = (if nullish current then Some TypeError else None)
    /\ CodeEditor.activeTab (fst (CodeEditor.handleGetHint current r st))
       = CodeEditor.HintTab
    /\ CodeEditor.code (fst (CodeEditor.handleGetHint current r st))
       = CodeEditor.code st
    /\ CodeEditor.result (fst (CodeEditor.handleGetHint current r st))
       = CodeEditor.result st
    /\ CodeEditor.isRunning (fst (CodeEditor.handleGetHint current r st))
       = CodeEditor.isRunning st.
Proof.
  intros current r st. unfold CodeEditor.handleGetHint.
  destruct (nullish current) eqn:Hn.
  - rewrite (get_prop_nullish _ _ Hn). simpl.
    unfold CodeEditor.hint_shown. simpl. repeat split.
  - destruct (get_prop_defined current "description" Hn) as [d ->]. simpl.
    destruct (getCodeHint_returns (CodeEditor.code st)
                (Str (CodeEditor.language_name (CodeEditor.language st))) d r)
      as [h [-> Hh]].
    unfold CodeEditor.hint_shown. simpl. rewrite Hh. repeat split.
Qed.



(* ================================================================== *)
(** * Further properties of the orchestration pipeline *)

Section MorePipelineFacts.

Context {client : GenerationClient}.
Variable w : World.

Lemma quiet_is_setter : quiet is_setter.
Proof. repeat split. Qed.

Lemma state_kept (tr : list event) :
  forall app, never is_setter tr = true -> apply_events app tr = app.
Proof.
  unfold apply_events.
  induction tr as [| e tr IH]; intros app H; simpl; [reflexivity |].
  simpl in H. apply andb_prop in H. destruct H as [He Htr].
  rewrite <- (IH app Htr) at 2. f_equal.
  destruct e; simpl in *; try discriminate; reflexivity.
Qed.

Lemma first_rejection_all_ok (l : list call) :
  (forall c, In c l -> rejected w c = false) ->
  first_rejection w l = None.
Proof.
  intros H. unfold first_rejection.
  destruct (find (rejected w) l) as [d |] eqn:Hfind; [| reflexivity].
  apply find_some in Hfind. destruct Hfind as [Hin Hd].
  rewrite (H d Hin) in Hd. discriminate.
Qed.

Lemma first_rejection_found (l : list call) (c : call) :
  In c l -> rejected w c = true ->
  exists e, first_rejection w l = Some e.
Proof.
  intros Hin Hc. unfold first_rejection.
  destruct (find (rejected w) l) as [d |] eqn:Hfind.
  - apply find_some in Hfind. destruct Hfind as [_ Hd].
    unfold rejected in Hd.
    destruct (finish (snd d) (reply_to w (fst d))) as [v | e];
      [discriminate | exists e; reflexivity].
  - rewrite (find_none _ _ Hfind c Hin) in Hc. discriminate.
Qed.

Lemma await_finish (c : call) :
  snd (await_op w c) = finish (snd c) (reply_to w (fst c)).
Proof. reflexivity. Qed.

(** The state a run ends in when nothing reaches its [catch]. *)
Lemma uncaught_run_final_state text imageBase64 company (app : AppState) :
  reaches_catch w text imageBase64 company = false ->
  exists analysis planModules quizQuestions codeChallenges skills,
    finish (client_analyze text imageBase64 company) (reply_to w Analyze)
    = Returned analysis
    /\ finish (client_studyPlan analysis) (reply_to w Plan) = Returned planModules
    /\ finish (client_quiz analysis) (reply_to w Quiz) = Returned quizQuestions
    /\ finish (client_challenges analysis) (reply_to w Challenges)
       = Returned codeChallenges
    /\ get_prop analysis "skills" = Returned skills
    /\ apply_events app (handleAnalyze w text imageBase64 company)
       = mkApp PLAN false analysis
           (Obj [("techStack", skills); ("studyPlan", planModules)])
           quizQuestions codeChallenges.
Proof.
  intros Hcatch. unfold reaches_catch in Hcatch.
  destruct (snd (await_op w (Analyze, client_analyze text imageBase64 company)))
    as [analysis | e] eqn:Hout; [| discriminate].
  destruct (first_rejection w (settle_order w (dependent_calls analysis)))
    eqn:Hnone; [discriminate |].
  apply negb_false_iff in Hcatch.
  unfold handleAnalyze.
  rewrite (try_and_catch_returned _ _ _ _ _ Hout). cbn [fst snd].
  destruct (join_fulfilled _ _ Hnone) as (_ & -> & ->).
  unfold after_join. rewrite Hnone.
  unfold dependent_calls in Hcatch |- * at 3. cbn [map fst snd] in *.
  destruct (finish (client_studyPlan analysis) (reply_to w Plan))
    as [planModules |] eqn:Hplan; [| discriminate].
  destruct (finish (client_quiz analysis) (reply_to w Quiz))
    as [quizQuestions |] eqn:Hquiz; [| discriminate].
  destruct (finish (client_challenges analysis) (reply_to w Challenges))
    as [codeChallenges |] eqn:Hcode; [| discriminate].
  unfold on_joined in *.
  destruct (get_prop analysis "skills") as [skills |] eqn:Hskills;
    [| discriminate].
  exists analysis, planModules, quizQuestions, codeChallenges, skills.
  rewrite await_finish in Hout. cbn [fst snd] in Hout.
  repeat (split; [assumption || reflexivity |]).
  rewrite !apply_events_app.
  rewrite (state_kept (fst (await_op w _))
             _ (never_await w is_setter _ quiet_is_setter)).
  change (apply_events (apply_events app [SetLoading true]) [SetJobData analysis])
    with (mkApp (activeTab app) true analysis (trainingPlan app) (quiz app)
                (challenges app)).
  rewrite (state_kept (launch _) _ (never_launch is_setter _ quiet_is_setter)).
  rewrite (state_kept (replies w (pending w _))
             _ (never_replies w is_setter _ quiet_is_setter)).
  reflexivity.
Qed.

End MorePipelineFacts.

Section GeminiPipelineFacts.

Variable w : World.

Lemma plan_returns (job : value) (r : reply) :
  returns (finish (Gemini.generateStudyPlan job) r) = true.
Proof.
  destruct (generateStudyPlan_finish job r) as [-> | [v [_ ->]]]; reflexivity.
Qed.

Lemma quiz_returns (job : value) (r : reply) :
  returns (finish (Gemini.generateQuiz job) r) = true.
Proof.
  destruct (generateQuiz_finish job r) as [-> | [v [_ ->]]]; reflexivity.
Qed.

Lemma gemini_rejected (analysis : value) (c : call) :
  In c (dependent_calls analysis) ->
  rejected w c = match fst c with
                 | Challenges => nullish analysis
                 | _ => false
                 end.
Proof.
  unfold dependent_calls, rejected. simpl.
  intros [<- | [<- | [<- | []]]]; simpl.
  - rewrite plan_returns. reflexivity.
  - rewrite quiz_returns. reflexivity.
  - rewrite challenges_rejects. apply negb_involutive.
Qed.

Lemma gemini_reaches_catch text imageBase64 company :
  reaches_catch w text imageBase64 company
  = nullish (match reply_to w Analyze with
             | Json v => v
             | _ => Gemini.fallbackAnalysis company
             end).
Proof.
  unfold reaches_catch. rewrite await_finish. cbn [fst snd client_analyze gemini].
  rewrite analyze_finish.
  set (analysis := match reply_to w Analyze with
                   | Json v => v
                   | _ => Gemini.fallbackAnalysis company
                   end).
  destruct (nullish analysis) eqn:Hn.
  - destruct (first_rejection_found w
                (settle_order w (dependent_calls analysis))
                (Challenges, client_challenges analysis)) as [e ->].
    + apply In_settle_order. unfold dependent_calls. simpl. tauto.
    + rewrite (gemini_rejected analysis); [exact Hn |].
      unfold dependent_calls. simpl. tauto.
    + reflexivity.
  - rewrite first_rejection_all_ok.
    + unfold dependent_calls. cbn [map fst snd client_studyPlan client_quiz
                                     client_challenges gemini].
      pose proof (plan_returns analysis (reply_to w Plan)) as Hp.
      pose proof (quiz_returns analysis (reply_to w Quiz)) as Hq.
      pose proof (challenges_rejects analysis (reply_to w Challenges)) as Hc.
      rewrite Hn in Hc.
      destruct (finish (Gemini.generateStudyPlan analysis) (reply_to w Plan));
        [| discriminate].
      destruct (finish (Gemini.generateQuiz analysis) (reply_to w Quiz));
        [| discriminate].
      destruct (finish (Gemini.generateCodeChallenges analysis)
                  (reply_to w Challenges)); [| discriminate].
      unfold on_joined.
      destruct (get_prop_defined analysis "skills" Hn) as [skills ->].
      reflexivity.
    + intros c Hc. apply In_settle_order in Hc.
      rewrite (gemini_rejected analysis c Hc).
      destruct (fst c); try reflexivity. exact Hn.
Qed.

Lemma fallbackAnalysis_truthy (company : option string) :
  truthy (Gemini.fallbackAnalysis company) = true.
Proof. reflexivity. Qed.

End GeminiPipelineFacts.

(** X10. A run in which nothing reaches the [catch] of [handleAnalyze]
    ends in Ready, whatever the state it started from: the study-plan tab
    is active, the loading flag is cleared, [jobData] is the analysis, the
    training plan pairs [analysis.skills] with the modules returned, and
    the quiz and the challenges are the lists the operations returned. *)
Theorem uncaught_run_reaches_ready :
  forall (client : GenerationClient) (w : World)
         (text : string) (imageBase64 company : option string) (app : AppState),
    reaches_catch w text imageBase64 company = false ->
    exists analysis planModules quizQuestions codeChallenges skills,
      finish (client_analyze text imageBase64 company) (reply_to w Analyze)
      = Returned analysis
      /\ finish (client_studyPlan analysis) (reply_to w Plan) = Returned planModules
      /\ finish (client_quiz analysis) (reply_to w Quiz) = Returned quizQuestions
      /\ finish (client_challenges analysis) (reply_to w Challenges)
         = Returned codeChallenges
      /\ get_prop analysis "skills" = Returned skills
      /\ apply_events app (handleAnalyze w text imageBase64 company)
         = mkApp PLAN false analysis
             (Obj [("techStack", skills); ("studyPlan", planModules)])
             quizQuestions codeChallenges.
Proof.
  intros client w text imageBase64 company app H.
  exact (uncaught_run_final_state w text imageBase64 company app H).
Qed.

Lemma uncaught_run_reaches_ready_witness :
  exists analysis planModules quizQuestions codeChallenges skills,
    finish (client_analyze "Backend Engineer, Java, AWS" None (Some "Amazon"))
           (reply_to Sample.failingWorld Analyze) = Returned analysis
    /\ finish (client_studyPlan analysis) (reply_to Sample.failingWorld Plan)
       = Returned planModules
    /\ finish (client_quiz analysis) (reply_to Sample.failingWorld Quiz)
       = Returned quizQuestions
    /\ finish (client_challenges analysis) (reply_to Sample.failingWorld Challenges)
       = Returned codeChallenges
    /\ get_prop analysis "skills" = Returned skills
    /\ apply_events initialApp
         (handleAnalyze Sample.failingWorld
            "Backend Engineer, Java, AWS" None (Some "Amazon"))
       = mkApp PLAN false analysis
           (Obj [("techStack", skills); ("studyPlan", planModules)])
           quizQuestions codeChallenges.
Proof.
  apply (uncaught_run_reaches_ready gemini Sample.failingWorld
           "Backend Engineer, Java, AWS" None (Some "Amazon") initialApp).
  reflexivity.
Defined.



Section RefreshFacts.

Context {client : GenerationClient}.
Variable w : World.

Lemma refreshQuiz_sets (app : AppState) (q : value) :
  truthy (jobData app) = true ->
  finish (client_quiz (jobData app)) (reply_to w Quiz) = Returned q ->
  apply_events app (refreshQuiz w app)
  = mkApp (activeTab app) (loading app) (jobData app) (trainingPlan app) q
          (challenges app).
Proof.
  intros Hjob Hq. unfold refreshQuiz. rewrite Hjob. cbn [negb].
  rewrite await_finish. cbn [fst snd]. rewrite Hq.
  rewrite apply_events_app.
  rewrite (state_kept _ _ (never_await w is_setter _ quiet_is_setter)).
  reflexivity.
Qed.

Lemma refreshChallenges_sets (app : AppState) (c : value) :
  truthy (jobData app) = true ->
  finish (client_challenges (jobData app)) (reply_to w Challenges) = Returned c ->
  apply_events app (refreshChallenges w app)
  = mkApp (activeTab app) (loading app) (jobData app) (trainingPlan app)
          (quiz app) c.
Proof.
  intros Hjob Hc. unfold refreshChallenges. rewrite Hjob. cbn [negb].
  rewrite await_finish. cbn [fst snd]. rewrite Hc.
  rewrite apply_events_app.
  rewrite (state_kept _ _ (never_await w is_setter _ quiet_is_setter)).
  reflexivity.
Qed.

Lemma refresh_unhandled (app : AppState) :
  (forall e, finish (client_quiz (jobData app)) (reply_to w Quiz) = Thrown e ->
             apply_events app (refreshQuiz w app) = app)
  /\ (forall e, finish (client_challenges (jobData app)) (reply_to w Challenges)
                = Thrown e ->
                apply_events app (refreshChallenges w app) = app).
Proof.
  split; intros e He; [unfold refreshQuiz | unfold refreshChallenges];
    (destruct (truthy (jobData app)); cbn [negb]; [| reflexivity]);
    rewrite await_finish; cbn [fst snd]; rewrite He, app_nil_r;
    apply state_kept; apply never_await; exact quiet_is_setter.
Qed.

Lemma invokes_of_await (c : call) :
  filter is_invoke (fst (await_op w c)) = [Invoke (fst c)].
Proof.
  destruct c as [op s].
  unfold await_op, launch_one, replies, settle_one. cbn [fst snd].
  destruct s; reflexivity.
Qed.

End RefreshFacts.

(** X12. A refresh does not revisit the pipeline: [refreshQuiz] may change
    the quiz slot only and [refreshChallenges] the challenges slot only
    (the active tab, the loading flag, the analysis and the training plan
    stay as they are), and each calls its own operation, once, when an
    analysis is stored and nothing otherwise. *)
Theorem refresh_changes_only_its_slot :
  forall (client : GenerationClient) (w : World) (app : AppState),
    (activeTab (apply_events app (refreshQuiz w app)) = activeTab app
     /\ loading (apply_events app (refreshQuiz w app)) = loading app
     /\ jobData (apply_events app (refreshQuiz w app)) = jobData app
     /\ trainingPlan (apply_events app (refreshQuiz w app)) = trainingPlan app
     /\ challenges (apply_events app (refreshQuiz w app)) = challenges app
     /\ filter is_invoke (refreshQuiz w app)
        = if truthy (jobData app) then [Invoke Quiz] else [])
    /\ (activeTab (apply_events app (refreshChallenges w app)) = activeTab app
        /\ loading (apply_events app (refreshChallenges w app)) = loading app
        /\ jobData (apply_events app (refreshChallenges w app)) = jobData app
        /\ trainingPlan (apply_events app (refreshChallenges w app)) = trainingPlan app
        /\ quiz (apply_events app (refreshChallenges w app)) = quiz app
        /\ filter is_invoke (refreshChallenges w app)
           = if truthy (jobData app) then [Invoke Challenges] else []).
Proof.
  intros client w app. split.
  - destruct (truthy (jobData app)) eqn:Hjob.
    + assert (filter is_invoke (refreshQuiz w app) = [Invoke Quiz]) as Hinv.
      { unfold refreshQuiz. rewrite Hjob. cbn [negb].
        rewrite filter_app, invokes_of_await.
        destruct (snd (await_op w (Quiz, client_quiz (jobData app))));
          reflexivity. }
      destruct (finish (client_quiz (jobData app)) (reply_to w Quiz))
        as [q | e] eqn:Hq.
      * rewrite (refreshQuiz_sets w app q Hjob Hq). repeat split. exact Hinv.
      * rewrite (proj1 (refresh_unhandled w app) e Hq). repeat split. exact Hinv.
    + unfold refreshQuiz. rewrite Hjob. repeat split.
  - destruct (truthy (jobData app)) eqn:Hjob.
    + assert (filter is_invoke (refreshChallenges w app) = [Invoke Challenges])
        as Hinv.
      { unfold refreshChallenges. rewrite Hjob. cbn [negb].
        rewrite filter_app, invokes_of_await.
        destruct (snd (await_op w (Challenges, client_challenges (jobData app))));
          reflexivity. }
      destruct (finish (client_challenges (jobData app)) (reply_to w Challenges))
        as [c | e] eqn:Hc.
      * rewrite (refreshChallenges_sets w app c Hjob Hc). repeat split.
        exact Hinv.
      * rewrite (proj2 (refresh_unhandled w app) e Hc). repeat split.
        exact Hinv.
    + unfold refreshChallenges. rewrite Hjob. repeat split.
Qed.






(** X15. Navigation changes the active tab and nothing else, and without
    an analysis it goes nowhere: on the analysis tab with [jobData] null
    (or otherwise falsy), no sequence of clicks on the navigation controls
    changes the application state. *)
Theorem navigation_needs_an_analysis :
  (forall (app : AppState) (c : NavClick),
      loading (navigate app c) = loading app
      /\ jobData (navigate app c) = jobData app
      /\ trainingPlan (navigate app c) = trainingPlan app
      /\ quiz (navigate app c) = quiz app
      /\ challenges (navigate app c) = challenges app)
  /\ (forall (app : AppState) (clicks : list NavClick),
      activeTab app = ANALYSIS ->
      truthy (jobData app) = false ->
      fold_left navigate clicks app = app).
Proof.
  split.
  - intros app c. unfold navigate, isLandingPage.
    destruct c;
      destruct (Tab_eqb (activeTab app) ANALYSIS);
      destruct (Tab_eqb (activeTab app) PLAN);
      destruct (truthy (jobData app));
      destruct (truthy (trainingPlan app)); repeat split.
  - intros app clicks Htab Hjob.
    induction clicks as [| c clicks IH]; simpl; [reflexivity |].
    assert (navigate app c = app) as ->; [| exact IH].
    unfold navigate, isLandingPage. rewrite Htab, Hjob.
    destruct c; reflexivity.
Qed.

Lemma navigation_needs_an_analysis_witness :
  fold_left navigate
    [ClickStudyPlan; ClickViewGeneratedPlan; ClickCodingLab; ClickBackToDashboard]
    initialApp = initialApp.
Proof.
  apply (proj2 navigation_needs_an_analysis initialApp
           [ClickStudyPlan; ClickViewGeneratedPlan; ClickCodingLab;
            ClickBackToDashboard]); reflexivity.
Defined.

(* ================================================================== *)
(** * Further properties of the intake form *)

Section MoreFormFacts.

Import JobAnalyzer.

Lemma trimStart_cases (s : string) :
  (blank s = true /\ trimStart s = EmptyString)
  \/ (blank s = false
      /\ exists c rest, trimStart s = String c rest /\ is_whitespace c = false).
Proof.
  induction s as [| c s IH]; simpl; [left; split; reflexivity |].
  destruct (is_whitespace c) eqn:Hc; simpl.
  - exact IH.
  - right. split; [reflexivity |]. exists c, s. split; [reflexivity | exact Hc].
Qed.

Lemma trimEnd_keeps_head (c : ascii) (rest : string) :
  is_whitespace c = false -> trimEnd (String c rest) <> EmptyString.
Proof.
  intros Hc. simpl. destruct (trimEnd rest); [rewrite Hc |]; discriminate.
Qed.

Lemma trim_blank (s : string) :
  truthy_string (trim s) = negb (blank s).
Proof.
  unfold trim.
  destruct (trimStart_cases s) as [[-> ->] | [-> [c [rest [-> Hc]]]]].
  - reflexivity.
  - apply truthy_string_nonempty. apply trimEnd_keeps_head. exact Hc.
Qed.

Lemma handleSubmit_by_blank (f : Form) :
  handleSubmit f =
  if blank (companyName f) then
    (setError f "Please enter a target company name.", None)
  else if is_text (activeTab f) && blank (text f) then
    (setError f "Please paste the job description text.", None)
  else if negb (is_text (activeTab f)) && negb (image_loaded (image f)) then
    (setError f "Please upload a job description image.", None)
  else
    (setError f "", Some (text f, base64Data (image f), companyName f)).
Proof.
  unfold handleSubmit. simpl. rewrite !trim_blank, !negb_involutive.
  reflexivity.
Qed.

Lemma split_comma_plain (s : string) :
  contains ","%char s = false -> split_comma s = [s].
Proof.
  induction s as [| c s IH]; simpl; [reflexivity |].
  intros H. apply orb_false_elim in H. destruct H as [Hc Hs].
  rewrite Hc, (IH Hs). reflexivity.
Qed.

Lemma split_comma_header (header payload : string) :
  contains ","%char header = false ->
  split_comma (header ++ String ","%char payload)
  = header :: split_comma payload.
Proof.
  induction header as [| c header IH]; simpl; [reflexivity |].
  intros H. apply orb_false_elim in H. destruct H as [Hc Hh].
  rewrite Hc, (IH Hh). reflexivity.
Qed.

Lemma blank_false_nonempty (s : string) :
  blank s = false -> truthy_string s = true.
Proof. destruct s; [discriminate | reflexivity]. Qed.

End MoreFormFacts.

(** X16. The checks of [handleSubmit] run in a fixed order, the company
    first: a company name that is empty or made of white space only gets
    the company message whatever the rest of the form holds.  A submission
    is handed to [onAnalyze] exactly when the company name has a visible
    character and, in text mode, the text has one or, in image mode, an
    image is loaded; what is handed over is the text and the company name
    as typed, untrimmed, with the inline error cleared. *)
Theorem handleSubmit_order_and_forwarding :
  forall f : JobAnalyzer.Form,
    (blank (JobAnalyzer.companyName f) = true ->
     JobAnalyzer.handleSubmit f
     = (JobAnalyzer.setError f "Please enter a target company name.", None))
    /\ (snd (JobAnalyzer.handleSubmit f) <> None
        <-> blank (JobAnalyzer.companyName f) = false
            /\ (if JobAnalyzer.is_text (JobAnalyzer.activeTab f)
                then blank (JobAnalyzer.text f) = false
                else JobAnalyzer.image_loaded (JobAnalyzer.image f) = true))
    /\ (snd (JobAnalyzer.handleSubmit f) <> None ->
        JobAnalyzer.handleSubmit f
        = (JobAnalyzer.setError f "",
           Some (JobAnalyzer.text f,
                 JobAnalyzer.base64Data (JobAnalyzer.image f),
                 JobAnalyzer.companyName f))).
Proof.
  intros f. rewrite handleSubmit_by_blank.
  destruct (blank (JobAnalyzer.companyName f)); simpl.
  - split; [reflexivity |]. split; [| intros H; exfalso; apply H; reflexivity].
    split; [intros H; exfalso; apply H; reflexivity | intros [H _]; discriminate].
  - split; [discriminate |].
    destruct (JobAnalyzer.is_text (JobAnalyzer.activeTab f)); simpl.
    + destruct (blank (JobAnalyzer.text f)); simpl.
      * split; [| intros H; exfalso; apply H; reflexivity].
        split; [intros H; exfalso; apply H; reflexivity
               | intros [_ H]; discriminate].
      * split; [| reflexivity].
        split; [intros _; split; reflexivity | discriminate].
    + destruct (JobAnalyzer.image_loaded (JobAnalyzer.image f)); simpl.
      * split; [| reflexivity].
        split; [intros _; split; reflexivity | discriminate].
      * split; [| intros H; exfalso; apply H; reflexivity].
        split; [intros H; exfalso; apply H; reflexivity
               | intros [_ H]; discriminate].
Qed.

Lemma handleSubmit_order_and_forwarding_witness :
  blank "   " = true
  /\ JobAnalyzer.handleSubmit
       (JobAnalyzer.mkForm JobAnalyzer.ImageMode "" "   " None "")
     = (JobAnalyzer.setError
          (JobAnalyzer.mkForm JobAnalyzer.ImageMode "" "   " None "")
          "Please enter a target company name.", None).
Proof.
  split; [reflexivity |].
  apply (proj1 (handleSubmit_order_and_forwarding
                  (JobAnalyzer.mkForm JobAnalyzer.ImageMode "" "   " None ""))).
  reflexivity.
Defined.

(** X17. What [handleSubmit] sends as image data is the part of the data
    URL after its first comma: for a header and a payload without commas,
    the payload; for a URL without any comma, nothing ([undefined]); and
    nothing when no image is loaded. *)
Theorem base64Data_is_the_payload :
  (forall header payload : string,
      contains ","%char header = false ->
      contains ","%char payload = false ->
      JobAnalyzer.base64Data (Some (header ++ String ","%char payload)%string)
      = Some payload)
  /\ (forall url : string,
      contains ","%char url = false ->
      JobAnalyzer.base64Data (Some url) = None)
  /\ JobAnalyzer.base64Data None = None.
Proof.
  split; [| split; [| reflexivity]].
  - intros header payload Hh Hp. unfold JobAnalyzer.base64Data.
    rewrite (split_comma_header header payload Hh), (split_comma_plain payload Hp).
    destruct header; reflexivity.
  - intros url Hu. unfold JobAnalyzer.base64Data.
    rewrite (split_comma_plain url Hu).
    destruct (truthy_string url); reflexivity.
Qed.

Lemma base64Data_is_the_payload_witness :
  JobAnalyzer.base64Data (Some ("data:image/png;base64" ++ String ","%char "iVBORw0KGgo=")%string)
  = Some "iVBORw0KGgo=".
Proof.
  apply (proj1 base64Data_is_the_payload "data:image/png;base64" "iVBORw0KGgo=");
    reflexivity.
Defined.

(** X18. From the form to the stored analysis: with the Gemini client, a
    valid form submitted on the analysis tab while nothing is loading,
    and an analysis request that fails, the run still ends in Ready with
    the fallback analysis stored, whose company is the company name exactly
    as it was typed; the inline error of the form is cleared. *)
Theorem submitted_company_reaches_fallback_analysis :
  forall (w : World) (app : AppState) (f : JobAnalyzer.Form),
    activeTab app = ANALYSIS ->
    loading app = false ->
    blank (JobAnalyzer.companyName f) = false ->
    (if JobAnalyzer.is_text (JobAnalyzer.activeTab f)
     then blank (JobAnalyzer.text f) = false
     else JobAnalyzer.image_loaded (JobAnalyzer.image f) = true) ->
    is_failure (reply_to w Analyze) = true ->
    JobAnalyzer.error (fst (submitAnalysis w app f)) = ""
    /\ activeTab (apply_events app (snd (submitAnalysis w app f))) = PLAN
    /\ loading (apply_events app (snd (submitAnalysis w app f))) = false
    /\ jobData (apply_events app (snd (submitAnalysis w app f)))
       = Gemini.fallbackAnalysis (Some (JobAnalyzer.companyName f))
    /\ get_prop (jobData (apply_events app (snd (submitAnalysis w app f))))
                "company"
       = Returned (Str (JobAnalyzer.companyName f)).
Proof.
  intros w app f Htab Hload Hcompany Hinput Hfail.
  unfold submitAnalysis, JobAnalyzer.clickGenerate.
  rewrite Htab, Hload. cbn [Tab_eqb].
  rewrite handleSubmit_by_blank, Hcompany.
  assert ((JobAnalyzer.is_text (JobAnalyzer.activeTab f)
           && blank (JobAnalyzer.text f) = false)
          /\ (negb (JobAnalyzer.is_text (JobAnalyzer.activeTab f))
              && negb (JobAnalyzer.image_loaded (JobAnalyzer.image f)) = false))
    as [-> ->].
  { destruct (JobAnalyzer.is_text (JobAnalyzer.activeTab f)); simpl;
      rewrite Hinput; split; reflexivity. }
  cbn [fst snd].
  pose proof (gemini_reaches_catch w (JobAnalyzer.text f)
                (JobAnalyzer.base64Data (JobAnalyzer.image f))
                (Some (JobAnalyzer.companyName f))) as Hcatch.
  assert (match reply_to w Analyze with
          | Json v => v
          | _ => Gemini.fallbackAnalysis (Some (JobAnalyzer.companyName f))
          end = Gemini.fallbackAnalysis (Some (JobAnalyzer.companyName f)))
    as Hanalysis by (destruct (reply_to w Analyze); try discriminate; reflexivity).
  rewrite Hanalysis in Hcatch. simpl in Hcatch.
  destruct (uncaught_run_final_state w _ _ _ app Hcatch)
    as (a & p & q & c & s & Ha & _ & _ & _ & _ & ->).
  cbn [client_analyze gemini] in Ha. rewrite analyze_finish, Hanalysis in Ha.
  inversion Ha; subst a.
  repeat (split; [reflexivity |]).
  unfold Gemini.fallbackAnalysis.
  rewrite (blank_false_nonempty _ Hcompany). reflexivity.
Qed.

Lemma submitted_company_reaches_fallback_analysis_witness :
  JobAnalyzer.error (fst (submitAnalysis Sample.failingWorld initialApp Sample.amazonForm))
  = ""
  /\ activeTab (apply_events initialApp
                  (snd (submitAnalysis Sample.failingWorld initialApp Sample.amazonForm)))
     = PLAN
  /\ loading (apply_events initialApp
                (snd (submitAnalysis Sample.failingWorld initialApp Sample.amazonForm)))
     = false
  /\ jobData (apply_events initialApp
                (snd (submitAnalysis Sample.failingWorld initialApp Sample.amazonForm)))
     = Gemini.fallbackAnalysis (Some (JobAnalyzer.companyName Sample.amazonForm))
  /\ get_prop (jobData (apply_events initialApp
                          (snd (submitAnalysis Sample.failingWorld initialApp
                                  Sample.amazonForm))))
              "company"
     = Returned (Str (JobAnalyzer.companyName Sample.amazonForm)).
Proof.
  apply (submitted_company_reaches_fallback_analysis
           Sample.failingWorld initialApp Sample.amazonForm);
    reflexivity.
Defined.

(* ================================================================== *)
(** * Further properties of the quiz runner *)

Section MoreQuizFacts.

Import QuizView.

Lemma activeQuestions_by_category (questions : value) (st st' : State) :
  activeCategory st = activeCategory st' ->
  activeQuestions questions st = activeQuestions questions st'.
Proof. unfold activeQuestions. intros ->. reflexivity. Qed.

Lemma handleSelect_keeps_position (q : value) (idx : nat) (st : State) :
  activeCategory (fst (handleSelect q idx st)) = activeCategory st
  /\ currentIdx (fst (handleSelect q idx st)) = currentIdx st.
Proof.
  unfold handleSelect. destruct (showResult st); [split; reflexivity |].
  destruct (get_prop q "correctAnswer") as [answer |]; [| split; reflexivity].
  destruct (strict_eq_num (Z.of_nat idx) answer); split; reflexivity.
Qed.

Lemma handleNext_in_range (active : list value) (st : State) :
  currentIdx st < List.length active ->
  activeCategory (handleNext active st) = activeCategory st
  /\ currentIdx (handleNext active st) < List.length active.
Proof.
  intros H. unfold handleNext.
  destruct (Z.ltb_spec (Z.of_nat (currentIdx st))
              (Z.of_nat (List.length active) - 1)); simpl.
  - split; [reflexivity | lia].
  - split; [reflexivity | exact H].
Qed.

Lemma stays_in_range (questions : value) (cat : string) (active : list value)
      (actions : list action) :
  forall s : State * list nat,
    activeQuestions questions (fst s) = Returned active ->
    activeCategory (fst s) = Some cat ->
    currentIdx (fst s) < List.length active ->
    forallb (fun a => negb (QuizScreen.leaves a)) actions = true ->
    activeCategory (fst (fold_left (step questions) actions s)) = Some cat
    /\ currentIdx (fst (fold_left (step questions) actions s))
       < List.length active.
Proof.
  induction actions as [| a actions IH]; intros [st answered] Hactive Hcat Hidx Hstay;
    simpl in *; [split; assumption |].
  apply andb_prop in Hstay. destruct Hstay as [Ha Hstay].
  apply IH; try exact Hstay; unfold step; rewrite Hactive;
    destruct a as [idx | |]; try discriminate; cbn [fst];
    try (destruct (handleSelect_keeps_position (currentQ active st) idx st)
          as [Hc Hi]);
    try (destruct (handleNext_in_range active st Hidx) as [Hc Hi]).
  - rewrite <- Hactive. apply activeQuestions_by_category. exact Hc.
  - rewrite <- Hactive. apply activeQuestions_by_category. exact Hc.
  - congruence.
  - congruence.
  - rewrite Hi. exact Hidx.
  - exact Hi.
Qed.

End MoreQuizFacts.

(** X19. Inside a category run the current question always exists: for a
    category that has at least one question, after any sequence of
    selections and presses of Next the category is still the active one
    and [currentIdx] is below the number of its questions, so
    [activeQuestions[currentIdx]] is one of them; Next on the last question
    does not move. *)
Theorem quiz_current_question_in_range :
  forall (questions : value) (cat : string) (st0 : QuizView.State)
         (active : list value) (actions : list QuizView.action),
    QuizView.activeQuestions questions (QuizView.handleCategorySelect cat st0)
    = Returned active ->
    active <> [] ->
    forallb (fun a => negb (QuizScreen.leaves a)) actions = true ->
    QuizView.activeCategory (fst (QuizView.run questions cat st0 actions)) = Some cat
    /\ QuizView.activeQuestions questions (fst (QuizView.run questions cat st0 actions))
       = Returned active
    /\ QuizView.currentIdx (fst (QuizView.run questions cat st0 actions))
       < List.length active
    /\ In (QuizView.currentQ active (fst (QuizView.run questions cat st0 actions)))
          active.
Proof.
  intros questions cat st0 active actions Hactive Hne Hstay.
  unfold QuizView.run.
  destruct (stays_in_range questions cat active actions
              (QuizView.handleCategorySelect cat st0, [])) as [Hcat Hidx];
    try assumption; try reflexivity.
  { simpl. destruct active; [contradiction | simpl; lia]. }
  split; [exact Hcat |]. split.
  - rewrite <- Hactive. apply activeQuestions_by_category.
    rewrite Hcat. reflexivity.
  - split; [exact Hidx |]. unfold QuizView.currentQ. apply nth_In. exact Hidx.
Qed.

Lemma quiz_current_question_in_range_witness :
  QuizView.currentIdx
    (fst (QuizView.run Sample.quizInRange "Technical" QuizView.initialQuiz
            [QuizView.Select 1; QuizView.Next; QuizView.Select 0; QuizView.Next;
             QuizView.Next])) < 2.
Proof.
  apply (quiz_current_question_in_range Sample.quizInRange "Technical"
           QuizView.initialQuiz
           (match Sample.quizInRange with Arr qs => qs | _ => [] end)
           [QuizView.Select 1; QuizView.Next; QuizView.Select 0; QuizView.Next;
            QuizView.Next]).
  - reflexivity.
  - discriminate.
  - reflexivity.
Defined.

(** X20. A topic without questions cannot be opened: when the quiz has
    questions but none of the chosen category, [handleCategorySelect]
    leads to the quiz view, whose heading reads [currentQ.question] of a
    current question that does not exist, and the render throws a
    TypeError. *)
Theorem quiz_empty_category_throws :
  forall (questions : list value) (cat : string) (st : QuizView.State),
    questions <> [] ->
    truthy_string cat = true ->
    QuizView.filter_category cat questions = Returned [] ->
    QuizScreen.screen questions (QuizView.handleCategorySelect cat st)
    = QuizScreen.QuestionScreen
    /\ QuizScreen.questionHeading (Arr questions)
         (QuizView.handleCategorySelect cat st)
       = Thrown TypeError.
Proof.
  intros questions cat st Hne Hcat Hnone. split.
  - unfold QuizScreen.screen. simpl. rewrite Hcat.
    destruct questions; [contradiction | reflexivity].
  - unfold QuizScreen.questionHeading, QuizView.activeQuestions. simpl.
    rewrite Hcat, Hnone. reflexivity.
Qed.

Lemma quiz_empty_category_throws_witness :
  QuizScreen.screen
    (match Sample.quizInRange with Arr qs => qs | _ => [] end)
    (QuizView.handleCategorySelect "Aptitude" QuizView.initialQuiz)
  = QuizScreen.QuestionScreen
  /\ QuizScreen.questionHeading
       (Arr (match Sample.quizInRange with Arr qs => qs | _ => [] end))
       (QuizView.handleCategorySelect "Aptitude" QuizView.initialQuiz)
     = Thrown TypeError.
Proof.
  apply (quiz_empty_category_throws
           (match Sample.quizInRange with Arr qs => qs | _ => [] end)
           "Aptitude" QuizView.initialQuiz).
  - discriminate.
  - reflexivity.
  - reflexivity.
Defined.

(* ================================================================== *)
(** * From a run to the views *)

Section RunToViews.

Variable w : World.



End RunToViews.




